(** * ttkthemes: the themed root window [ThemedTk]

    A shallow embedding of [src/ttkthemes/themed_tk.py] and the properties
    of its constructor, of [set_theme], of the [Toplevel.__init__] hook and
    of the font loader.

    The class is plumbing over Tkinter, so the embedding is a small
    state-and-exception monad over a [World]: the heap of [ThemedTk]
    objects, the process-wide binding [tk.Toplevel.__init__], and a log of
    the calls made on the toolkit.  Everything the class only calls
    (Tkinter, ttk, tkextrafont, the file system, [ThemedWidget]) is a field
    of the environment record [Env]. *)

From stdpp Require Import gmap strings list.

Open Scope string_scope.
Open Scope list_scope.

(** ** Python values and the dict/str operations the class uses *)

(** The values that reach the constructor's keyword options. *)
Inductive pyval :=
| PNone
| PBool (b : bool)
| PInt (z : Z)
| PStr (s : string).

#[global] Instance pyval_eq_dec : EqDecision pyval.
Proof. solve_decision. Defined.

(** Truth value of an object, as [if] and [and] test it. *)
Definition truthy (v : pyval) : bool :=
  match v with
  | PNone => false
  | PBool b => b
  | PInt z => negb (Z.eqb z 0)
  | PStr s => negb (String.eqb s "")
  end.

(** [a and b]: the value of [a] when it is falsy, otherwise [b]. *)
Definition py_and (a b : pyval) : pyval := if truthy a then b else a.

(** [v is True]: identity with the singleton [True]. *)
Definition is_True (v : pyval) : bool :=
  match v with PBool true => true | _ => false end.

(** [d.pop(k, dflt)]: the value and the dict without the key. *)
Definition pop (k : string) (dflt : pyval) (d : gmap string pyval)
  : pyval * gmap string pyval :=
  (default dflt (d !! k), delete k d).

(** [d.setdefault(k, v)], for its effect on the dict. *)
Definition setdefault (k : string) (v : pyval) (d : gmap string pyval)
  : gmap string pyval :=
  match d !! k with
  | Some _ => d
  | None => <[k:=v]> d
  end.

(** [s.endswith(suffix)]. *)
Definition endswith (s suffix : string) : bool :=
  let n := String.length s in
  let m := String.length suffix in
  (m <=? n)%nat && String.eqb (String.substring (n - m) m s) suffix.

(** [os.path.join(a, b)] for a relative [b]. *)
Definition path_join (a b : string) : string := a +:+ "/" +:+ b.

(** ** Function objects, events, objects and the world *)

(** What [tk.Toplevel.__init__] can be bound to: the toolkit's own
    constructor, or a closure [__toplevel__] made by [_setup_toplevel_hook].
    A closure is a fresh function object ([fid]) that captures [self] and
    [color]. *)
Inductive fn :=
| Toplevel_orig
| __toplevel__ (fid : nat) (self : nat) (color : string).

#[global] Instance fn_eq_dec : EqDecision fn.
Proof. solve_decision. Defined.

(** Calls made on the collaborators, in program order. *)
Inductive event :=
| EvTkInit (self : nat) (args : list pyval) (kwargs : gmap string pyval)
| EvThemedWidgetInit (self : nat)
| EvWidgetSetTheme (self : nat) (theme_name : string)
| EvConfigBackground (self : nat) (color : string)
| EvRebindToplevelInit (f : fn)
| EvStyleConfigureFont (self : nat) (font : string)
| EvImportTkextrafont
| EvLoadExtrafont (self : nat)
| EvFontInfo (self : nat) (font : string)
| EvPrint (msg : string)
| EvLoadFont (self : nat) (font : string)
| EvToplevelOrigInit (args : list pyval) (kwargs : gmap string pyval).

(** A [ThemedTk] object: its two instance attributes ([None] while unset)
    and the toolkit state of its window.  [self.__init__toplevel] is the
    same attribute in [__init__] and in the closure: both are written
    inside the class, so Python mangles the name the same way. *)
Record ThemedTk_obj := mkThemedTk {
  font_support : option pyval;
  __init__toplevel : option fn;
  background_option : option string;
  theme_in_use : option string;
  default_font : option string;
}.

Definition blank_obj : ThemedTk_obj := mkThemedTk None None None None None.

Record World := mkWorld {
  Toplevel__init__ : fn;
  heap : list ThemedTk_obj;
  next_fid : nat;
  log : list event;
}.

(** A fresh interpreter: nothing patched, no window. *)
Definition fresh_world : World := mkWorld Toplevel_orig [] 0 [].

(** ** Exceptions and the monad *)

Inductive exn := TclError | ImportError | AttributeError | RecursionError.

#[global] Instance exn_eq_dec : EqDecision exn.
Proof. solve_decision. Defined.

Inductive res (A : Type) :=
| Ok (a : A)
| Raise (e : exn).
Arguments Ok {A} a.
Arguments Raise {A} e.

(** A computation returns or raises; the world it leaves is kept in both
    cases, as Python keeps mutations made before an exception. *)
Definition M (A : Type) : Type := World → res A * World.

Definition ret {A} (a : A) : M A := λ w, (Ok a, w).
Definition raise {A} (e : exn) : M A := λ w, (Raise e, w).
Definition bind {A B} (m : M A) (k : A → M B) : M B :=
  λ w, match m w with
       | (Ok a, w') => k a w'
       | (Raise e, w') => (Raise e, w')
       end.

Notation "'let*' x ':=' m 'in' k" := (bind m (λ x, k))
  (at level 10, x name, m at level 100, k at level 200).
Notation "m '>>' k" := (bind m (λ _, k))
  (at level 100, k at level 200, right associativity).

(** [try: body except <catches>: handler]. *)
Definition try_except {A} (body : M A) (catches : exn → bool) (handler : M A) : M A :=
  λ w, match body w with
       | (Raise e, w') => if catches e then handler w' else (Raise e, w')
       | r => r
       end.

(** [for x in l: body(x)]; [continue] is the body returning early. *)
Fixpoint for_each {A} (l : list A) (body : A → M unit) : M unit :=
  match l with
  | [] => ret tt
  | x :: l' => body x >> for_each l' body
  end.

(** The world with more calls logged, and with another heap. *)
Definition add_log (w : World) (evs : list event) : World :=
  mkWorld (Toplevel__init__ w) (heap w) (next_fid w) (log w ++ evs).
Definition with_heap (w : World) (h : list ThemedTk_obj) : World :=
  mkWorld (Toplevel__init__ w) h (next_fid w) (log w).

Definition emit (e : event) : M unit := λ w, (Ok tt, add_log w [e]).

(** Attribute access on an object of the heap. *)
Definition get_obj (self : nat) : M ThemedTk_obj :=
  λ w, match heap w !! self with
       | Some o => (Ok o, w)
       | None => (Raise AttributeError, w)
       end.

Definition update_obj (self : nat) (f : ThemedTk_obj → ThemedTk_obj) : M unit :=
  λ w, match heap w !! self with
       | Some o => (Ok tt, with_heap w (<[self:=f o]> (heap w)))
       | None => (Raise AttributeError, w)
       end.

(** Reading an instance attribute that was never assigned raises. *)
Definition getattr {A} (self : nat) (field : ThemedTk_obj → option A) : M A :=
  let* o := get_obj self in
  match field o with
  | Some v => ret v
  | None => raise AttributeError
  end.

Definition set_font_support (v : pyval) (o : ThemedTk_obj) : ThemedTk_obj :=
  mkThemedTk (Some v) (__init__toplevel o) (background_option o)
             (theme_in_use o) (default_font o).
Definition set___init__toplevel (f : fn) (o : ThemedTk_obj) : ThemedTk_obj :=
  mkThemedTk (font_support o) (Some f) (background_option o)
             (theme_in_use o) (default_font o).
Definition set_background_option (c : string) (o : ThemedTk_obj) : ThemedTk_obj :=
  mkThemedTk (font_support o) (__init__toplevel o) (Some c)
             (theme_in_use o) (default_font o).
Definition set_theme_in_use (t : string) (o : ThemedTk_obj) : ThemedTk_obj :=
  mkThemedTk (font_support o) (__init__toplevel o) (background_option o)
             (Some t) (default_font o).
Definition set_default_font (f : string) (o : ThemedTk_obj) : ThemedTk_obj :=
  mkThemedTk (font_support o) (__init__toplevel o) (background_option o)
             (theme_in_use o) (Some f).

(** ** The collaborators *)

(** Outcome of probing a font file with [font_info]. *)
Inductive probe := Available | Unavailable | ProbeError.

(** Everything [themed_tk.py] calls but does not define. *)
Record Env := mkEnv {
  (** [ThemedWidget.get_themes()]: the theme registry. *)
  get_themes : list string;
  (** Whether [ThemedWidget.set_theme(name)] returns (it raises [TclError]
      otherwise). *)
  theme_loads : string → bool;
  (** [ttk.Style.lookup(style, option)] under a theme in use, [None] where
      the theme does not set the option. *)
  style_lookup : option string → string → string → option string;
  (** Whether [tk.Tk.__init__] accepts the arguments it is given. *)
  Tk_accepts : list pyval → gmap string pyval → bool;
  (** Whether [import tkextrafont] finds the module. *)
  tkextrafont_installed : bool;
  (** Whether [tkextrafont.load_extrafont] returns. *)
  load_extrafont_ok : bool;
  (** [get_fonts_directory()] and [os.listdir] over the bundled tree, which
      is package data: a directory of folders of files, in listing order. *)
  get_fonts_directory : string;
  listdir : string → list string;
  (** What [self.font_info(font)] answers, and whether [self.load_font(font)]
      returns (it raises [TclError] otherwise). *)
  font_info_result : string → probe;
  load_font_ok : string → bool;
}.

(** ** The class *)

Section ThemedTk.
Variable env : Env.

(** *** Calls on the collaborators *)

Definition Tk__init__ (self : nat) (args : list pyval)
    (kwargs : gmap string pyval) : M unit :=
  emit (EvTkInit self args kwargs) >>
  if Tk_accepts env args kwargs then ret tt else raise TclError.

Definition ThemedWidget__init__ (self : nat) : M unit :=
  emit (EvThemedWidgetInit self).

Definition ThemedWidget_set_theme (self : nat) (theme_name : string) : M unit :=
  emit (EvWidgetSetTheme self theme_name) >>
  if theme_loads env theme_name
  then update_obj self (set_theme_in_use theme_name)
  else raise TclError.

(** [ttk.Style(self).lookup(style, option, default=dflt)]. *)
Definition Style_lookup (self : nat) (style option dflt : string) : M string :=
  let* o := get_obj self in
  ret (default dflt (style_lookup env (theme_in_use o) style option)).

(** [self.config(background=color)]. *)
Definition config_background (self : nat) (color : string) : M unit :=
  emit (EvConfigBackground self color) >>
  update_obj self (set_background_option color).

(** [style.configure(".", font=font)]. *)
Definition configure_font (self : nat) (font : string) : M unit :=
  emit (EvStyleConfigureFont self font) >>
  update_obj self (set_default_font font).

Definition import_tkextrafont : M unit :=
  emit EvImportTkextrafont >>
  if tkextrafont_installed env then ret tt else raise ImportError.

Definition load_extrafont (self : nat) : M unit :=
  emit (EvLoadExtrafont self) >>
  if load_extrafont_ok env then ret tt else raise TclError.

Definition font_info (self : nat) (font : string) : M bool :=
  emit (EvFontInfo self font) >>
  match font_info_result env font with
  | Available => ret true
  | Unavailable => ret false
  | ProbeError => raise TclError
  end.

Definition load_font (self : nat) (font : string) : M unit :=
  emit (EvLoadFont self font) >>
  if load_font_ok env font then ret tt else raise TclError.

Definition print (msg : string) : M unit := emit (EvPrint msg).

(** *** Class attribute *)

Definition FONTS : gmap string string := {[ "adapta" := "roboto" ]}.

(** *** [_load_fonts] (lines 85-102) *)

Definition is_TclError (e : exn) : bool :=
  match e with TclError => true | _ => false end.

Definition _load_fonts (self : nat) : M unit :=
  import_tkextrafont >>
  load_extrafont self >>
  let fonts_path := get_fonts_directory env in
  for_each (listdir env fonts_path) (λ folder,
    let font_path := path_join fonts_path folder in
    for_each (listdir env font_path) (λ file,
      if negb (endswith file ".ttf") then ret tt
      else
        let font := path_join font_path file in
        let* info := font_info self font in
        if negb info then print ("Font not available: " +:+ file)
        else try_except (load_font self font) is_TclError (ret tt))).

(** *** [_setup_toplevel_hook] (lines 77-83) *)

(** Calling a function object bound to [Toplevel.__init__].  The closure
    reads [self.__init__toplevel] when it runs.  [depth] is the number of
    frames the interpreter still allows; exceeding it is Python's
    [RecursionError]. *)
Fixpoint call (depth : nat) (f : fn) (args : list pyval)
    (kwargs : gmap string pyval) : M unit :=
  match depth with
  | O => raise RecursionError
  | S depth' =>
      match f with
      | Toplevel_orig => emit (EvToplevelOrigInit args kwargs)
      | __toplevel__ _ self color =>
          let kwargs := setdefault "background" (PStr color) kwargs in
          let* saved := getattr self __init__toplevel in
          call depth' saved args kwargs
      end
  end.

Definition _setup_toplevel_hook (self : nat) (color : string) : M unit :=
  λ w,
    let hook := __toplevel__ (next_fid w) self color in
    (Ok tt, mkWorld hook (heap w) (S (next_fid w))
                    (log w ++ [EvRebindToplevelInit hook])).

(** *** [set_theme] (lines 65-75) *)

Definition set_theme (self : nat) (theme_name : string)
    (toplevel background : pyval) : M unit :=
  ThemedWidget_set_theme self theme_name >>
  let* color := Style_lookup self "TFrame" "background" "white" in
  (if is_True background then config_background self color else ret tt) >>
  (if is_True toplevel then _setup_toplevel_hook self color else ret tt) >>
  match FONTS !! theme_name with
  | Some font =>
      let* fs := getattr self font_support in
      if truthy fs then configure_font self font else ret tt
  | None => ret tt
  end.

(** *** [__init__] (lines 37-63) *)

Definition catches_TclError_ImportError (e : exn) : bool :=
  match e with TclError | ImportError => true | _ => false end.

Definition __init__ (self : nat) (args : list pyval)
    (kwargs : gmap string pyval) : M unit :=
  let '(theme, kwargs) := pop "theme" PNone kwargs in
  let '(toplevel, kwargs) := pop "toplevel" (PBool false) kwargs in
  let '(background, kwargs) := pop "background" (PBool false) kwargs in
  let '(fonts, kwargs) := pop "fonts" (PBool false) kwargs in
  Tk__init__ self args kwargs >>
  ThemedWidget__init__ self >>
  try_except
    (_load_fonts self >>
     update_obj self (set_font_support (py_and (PBool true) fonts)))
    catches_TclError_ImportError
    (update_obj self (set_font_support (PBool false))) >>
  (match theme with
   | PStr theme_name =>
       (* [theme is not None and theme in self.get_themes()] *)
       if bool_decide (theme_name ∈ get_themes env)
       then set_theme self theme_name toplevel background
       else ret tt
   | _ => ret tt  (* [None], or a value that equals no theme name *)
   end) >>
  λ w, update_obj self (set___init__toplevel (Toplevel__init__ w)) w.

(** *** Creating objects *)

(** [ThemedTk(args, kwargs)]: a new object, then [__init__] on it. *)
Definition ThemedTk (args : list pyval) (kwargs : gmap string pyval) : M nat :=
  λ w,
    let self := length (heap w) in
    (__init__ self args kwargs >> ret self) (with_heap w (heap w ++ [blank_obj])).

(** [tk.Toplevel(args, kwargs)]: whatever [tk.Toplevel.__init__] is
    bound to is called. *)
Definition Toplevel (depth : nat) (args : list pyval)
    (kwargs : gmap string pyval) : M unit :=
  λ w, call depth (Toplevel__init__ w) args kwargs w.

End ThemedTk.

(** ** Reading the model: helper definitions for the statements *)

(** The keyword arguments left once the four options are popped. *)
Definition remaining (kwargs : gmap string pyval) : gmap string pyval :=
  (pop "fonts" (PBool false)
     (pop "background" (PBool false)
        (pop "toplevel" (PBool false) (pop "theme" PNone kwargs).2).2).2).2.

(** The values the constructor reads for its options. *)
Definition option_toplevel (kwargs : gmap string pyval) : pyval :=
  default (PBool false) (kwargs !! "toplevel").
Definition option_background (kwargs : gmap string pyval) : pyval :=
  default (PBool false) (kwargs !! "background").
Definition option_fonts (kwargs : gmap string pyval) : pyval :=
  default (PBool false) (kwargs !! "fonts").

(** The theme the constructor applies: the [theme] option when it names a
    registered theme. *)
Definition initial_theme (env : Env) (kwargs : gmap string pyval) : option string :=
  match kwargs !! "theme" with
  | Some (PStr theme_name) =>
      if bool_decide (theme_name ∈ get_themes env) then Some theme_name else None
  | _ => None
  end.

(** The frame background [set_theme] resolves once [theme_name] is in use. *)
Definition frame_background (env : Env) (theme_name : string) : string :=
  default "white" (style_lookup env (Some theme_name) "TFrame" "background").

(** Attribute of an object of a world. *)
Definition attr {A} (w : World) (self : nat) (field : ThemedTk_obj → option A)
  : option A :=
  heap w !! self ≫= field.

(** Events by kind. *)
Definition rebinds (evs : list event) : nat :=
  length (List.filter (λ e, match e with EvRebindToplevelInit _ => true | _ => false end) evs).

Definition is_theme_effect (e : event) : bool :=
  match e with
  | EvWidgetSetTheme _ _ | EvConfigBackground _ _
  | EvRebindToplevelInit _ | EvStyleConfigureFont _ _ => true
  | _ => false
  end.

Definition probed (evs : list event) : list string :=
  omap (λ e, match e with EvFontInfo _ font => Some font | _ => None end) evs.
Definition attempted (evs : list event) : list string :=
  omap (λ e, match e with EvLoadFont _ font => Some font | _ => None end) evs.

(** The font files of the bundled tree, in the order the loops visit them. *)
Definition ttf_files (env : Env) : list string :=
  let fonts_path := get_fonts_directory env in
  flat_map (λ folder,
      let font_path := path_join fonts_path folder in
      map (path_join font_path)
          (List.filter (λ file, endswith file ".ttf") (listdir env font_path)))
    (listdir env fonts_path).

Definition is_available (env : Env) (font : string) : bool :=
  match font_info_result env font with Available => true | _ => false end.

(** A sequence of later [set_theme] calls on one window; a call that raises
    leaves the world it reached and the next call goes on from there. *)
Definition set_theme_calls (env : Env) (self : nat)
    (calls : list (string * pyval * pyval)) (w : World) : World :=
  foldl (λ w c, (set_theme env self c.1.1 c.1.2 c.2 w).2) w calls.

(** The calls of a sequence that rebind [Toplevel.__init__]. *)
Definition rebinding_calls (env : Env) (calls : list (string * pyval * pyval)) : nat :=
  length (List.filter (λ c, theme_loads env c.1.1 && is_True c.1.2) calls).

(** Function objects are numbered below [next_fid]. *)
Definition fn_known (w : World) (f : fn) : Prop :=
  match f with
  | Toplevel_orig => True
  | __toplevel__ fid _ _ => fid < next_fid w
  end.

(** [m] returns [r] in every world and only logs [evs]. *)
Definition log_only {A} (m : M A) (r : res A) (evs : list event) : Prop :=
  ∀ w, m w = (r, add_log w evs).

(** A result the [except (tk.TclError, ImportError)] clause of the
    constructor lets through or handles. *)
Definition caught {A} (r : res A) : Prop :=
  match r with
  | Ok _ => True
  | Raise e => catches_TclError_ImportError e = true
  end.

(** The value the constructor assigns to [font_support], by the result of
    the loader. *)
Definition font_flag (rf : res unit) (kwargs : gmap string pyval) : pyval :=
  match rf with
  | Ok _ => py_and (PBool true) (option_fonts kwargs)
  | Raise _ => PBool false
  end.

(** The calls the font loader makes. *)
Definition is_font_event (e : event) : bool :=
  match e with
  | EvImportTkextrafont | EvLoadExtrafont _ | EvFontInfo _ _
  | EvPrint _ | EvLoadFont _ _ => true
  | _ => false
  end.

(** [m] behaves like a piece of the font loader: it only logs loader
    calls, and what it raises the constructor handles. *)
Definition loader_run {A} (m : M A) : Prop :=
  ∃ r evs, log_only m r evs ∧ caught r ∧ Forall (λ e, is_font_event e = true) evs.

(** Whether the constructor itself rebinds [Toplevel.__init__]: its
    [set_theme] call is reached, applies the theme and has [toplevel] on. *)
Definition constructor_rebinds (env : Env) (args : list pyval)
    (kwargs : gmap string pyval) : nat :=
  match initial_theme env kwargs with
  | Some theme_name =>
      if Tk_accepts env args (remaining kwargs) && theme_loads env theme_name
         && is_True (option_toplevel kwargs)
      then 1 else 0
  | None => 0
  end.

(** A window's life: its construction, then later [set_theme] calls. *)
Definition lifetime (env : Env) (args : list pyval) (kwargs : gmap string pyval)
    (calls : list (string * pyval * pyval)) (w : World) : World :=
  set_theme_calls env (length (heap w)) calls (ThemedTk env args kwargs w).2.

(** The reading of the data model under which one window rebinds the hook
    at most once. *)
Definition rebound_at_most_once (env : Env) (args : list pyval)
    (kwargs : gmap string pyval) (calls : list (string * pyval * pyval))
    (w : World) : Prop :=
  (rebinds (log (lifetime env args kwargs calls w)) ≤ rebinds (log w) + 1)%nat.

Definition is_Tk_init (e : event) : bool :=
  match e with EvTkInit _ _ _ => true | _ => false end.

(** *** A sample installation, for the examples *)

Definition sample_listdir (path : string) : list string :=
  if String.eqb path "fonts" then ["roboto"]
  else if String.eqb path "fonts/roboto"
       then ["Roboto-Regular.ttf"; "LICENSE.txt"; "Roboto-Bold.ttf"; "Roboto-Thin.ttf"]
       else [].

(** Two themes; the font module is there; [Roboto-Regular.ttf] fails to
    load and [Roboto-Bold.ttf] is reported unavailable. *)
Definition sample_env : Env :=
  mkEnv ["arc"; "adapta"]
        (λ theme_name, bool_decide (theme_name ∈ ["arc"; "adapta"]))
        (λ theme style option,
           match theme with
           | Some "arc" => Some "#f5f6f7"
           | Some "adapta" => Some "#fafbfc"
           | _ => None
           end)
        (λ _ _, true)
        true true "fonts" sample_listdir
        (λ font, if String.eqb font "fonts/roboto/Roboto-Bold.ttf"
                 then Unavailable else Available)
        (λ font, negb (String.eqb font "fonts/roboto/Roboto-Regular.ttf")).

(** The same installation without [tkextrafont]. *)
Definition sample_env_no_module : Env :=
  mkEnv (get_themes sample_env) (theme_loads sample_env) (style_lookup sample_env)
        (Tk_accepts sample_env) false true "fonts" sample_listdir
        (font_info_result sample_env) (load_font_ok sample_env).

(** *** Further readings of the log and of the tree *)

Definition printed (evs : list event) : list string :=
  omap (λ e, match e with EvPrint msg => Some msg | _ => None end) evs.

Definition probe_raises (env : Env) (font : string) : bool :=
  match font_info_result env font with ProbeError => true | _ => false end.

(** The names (not the paths) of the font files reported unavailable, in
    the order the loops visit them. *)
Definition unavailable_names (env : Env) : list string :=
  let fonts_path := get_fonts_directory env in
  flat_map (λ folder,
      let font_path := path_join fonts_path folder in
      List.filter (λ file,
          endswith file ".ttf"
          && match font_info_result env (path_join font_path file) with
             | Unavailable => true
             | _ => false
             end)
        (listdir env font_path))
    (listdir env fonts_path).


(** A closure made by the window [self]. *)
Definition is_hook_of (self : nat) (f : fn) : bool :=
  match f with
  | __toplevel__ _ owner _ => Nat.eqb owner self
  | Toplevel_orig => false
  end.

(** The sample installation with a font file whose probe raises, with a
    registered theme that cannot be applied, and with a toolkit that
    accepts no keyword argument. *)
Definition sample_env_bad_probe : Env :=
  mkEnv (get_themes sample_env) (theme_loads sample_env) (style_lookup sample_env)
        (Tk_accepts sample_env) true true "fonts" sample_listdir
        (λ font, if String.eqb font "fonts/roboto/Roboto-Bold.ttf"
                 then ProbeError else Available)
        (load_font_ok sample_env).

Definition sample_env_broken_theme : Env :=
  mkEnv (get_themes sample_env) (λ theme_name, String.eqb theme_name "arc")
        (style_lookup sample_env)
        (Tk_accepts sample_env) true true "fonts" sample_listdir
        (font_info_result sample_env) (load_font_ok sample_env).

Definition sample_env_strict_Tk : Env :=
  mkEnv (get_themes sample_env) (theme_loads sample_env) (style_lookup sample_env)
        (λ _ kwargs, bool_decide (kwargs = ∅)) true true "fonts" sample_listdir
        (font_info_result sample_env) (load_font_ok sample_env).

(** Whether the font loader returns (its result does not depend on the
    world it runs in). *)
Definition loader_returns (env : Env) (self : nat) : bool :=
  match (_load_fonts env self fresh_world).1 with
  | Ok _ => true
  | Raise _ => false
  end.

(** ** Basic facts about the monad *)

Lemma add_log_nil w : add_log w [] = w.
Proof. destruct w; unfold add_log; simpl. by rewrite app_nil_r. Qed.

Lemma add_log_app w a b : add_log (add_log w a) b = add_log w (a ++ b).
Proof. unfold add_log; simpl. by rewrite app_assoc. Qed.

Lemma log_only_ret {A} (a : A) : log_only (ret a) (Ok a) [].
Proof. intros w. unfold ret. by rewrite add_log_nil. Qed.

Lemma log_only_raise {A} e : log_only (@raise A e) (Raise e) [].
Proof. intros w. unfold raise. by rewrite add_log_nil. Qed.

Lemma log_only_emit e : log_only (emit e) (Ok tt) [e].
Proof. by intros w. Qed.

Lemma log_only_bind_ok {A B} (m : M A) (k : A → M B) a e1 r e2 :
  log_only m (Ok a) e1 → log_only (k a) r e2 → log_only (bind m k) r (e1 ++ e2).
Proof.
  intros Hm Hk w. unfold bind. rewrite Hm, Hk. by rewrite add_log_app.
Qed.

Lemma log_only_bind_raise {A B} (m : M A) (k : A → M B) e e1 :
  log_only m (Raise e) e1 → log_only (bind m k) (Raise e) e1.
Proof. intros Hm w. unfold bind. by rewrite Hm. Qed.

Lemma log_only_try_ok {A} (m h : M A) c a e1 :
  log_only m (Ok a) e1 → log_only (try_except m c h) (Ok a) e1.
Proof. intros Hm w. unfold try_except. by rewrite Hm. Qed.

Lemma log_only_try_caught {A} (m h : M A) c e e1 r e2 :
  log_only m (Raise e) e1 → c e = true → log_only h r e2 →
  log_only (try_except m c h) r (e1 ++ e2).
Proof.
  intros Hm Hc Hh w. unfold try_except. rewrite Hm, Hc, Hh. by rewrite add_log_app.
Qed.

Lemma log_only_fun {A} (m : M A) r1 e1 r2 e2 :
  log_only m r1 e1 → log_only m r2 e2 → r1 = r2 ∧ e1 = e2.
Proof.
  intros H1 H2. pose proof (H1 fresh_world) as E1. rewrite (H2 fresh_world) in E1.
  unfold add_log in E1; simpl in E1. by inversion E1.
Qed.

Lemma for_each_loader_run {A} (l : list A) (body : A → M unit) :
  (∀ x, x ∈ l → loader_run (body x)) → loader_run (for_each l body).
Proof.
  induction l as [|x l IH]; intros Hbody; simpl.
  - exists (Ok tt), []. split; [apply log_only_ret | done].
  - destruct (Hbody x) as (r & e1 & Hx & Hc & Hf); [left |].
    destruct r as [[]|e].
    + destruct IH as (r2 & e2 & Hl & Hc2 & Hf2).
      { intros y Hy. apply Hbody. by right. }
      exists r2, (e1 ++ e2). split; [|split; [done|]].
      * by apply (log_only_bind_ok _ _ tt).
      * by apply Forall_app.
    + exists (Raise e), e1. split; [|done]. by apply log_only_bind_raise.
Qed.

(** ** The font loader *)

Section FontLoader.
Variable env : Env.
Variable self : nat.

Local Abbreviation font_file font_path :=
  (λ file : string,
      if negb (endswith file ".ttf") then ret tt
      else
        let font := path_join font_path file in
        let* info := font_info env self font in
        if negb info then print ("Font not available: " +:+ file)
        else try_except (load_font env self font) is_TclError (ret tt)).

Local Abbreviation font_folder fonts_path :=
  (λ folder : string,
      let font_path := path_join fonts_path folder in
      for_each (listdir env font_path) (font_file font_path)).

Lemma import_tkextrafont_run :
  log_only (import_tkextrafont env)
           (if tkextrafont_installed env then Ok tt else Raise ImportError)
           [EvImportTkextrafont].
Proof.
  unfold import_tkextrafont. change [EvImportTkextrafont] with ([EvImportTkextrafont] ++ []).
  eapply log_only_bind_ok; [apply log_only_emit |].
  destruct (tkextrafont_installed env); [apply log_only_ret | apply log_only_raise].
Qed.

Lemma load_extrafont_run :
  log_only (load_extrafont env self)
           (if load_extrafont_ok env then Ok tt else Raise TclError)
           [EvLoadExtrafont self].
Proof.
  unfold load_extrafont. change [EvLoadExtrafont self] with ([EvLoadExtrafont self] ++ []).
  eapply log_only_bind_ok; [apply log_only_emit |].
  destruct (load_extrafont_ok env); [apply log_only_ret | apply log_only_raise].
Qed.

Lemma font_info_run font :
  log_only (font_info env self font)
           (match font_info_result env font with
            | Available => Ok true
            | Unavailable => Ok false
            | ProbeError => Raise TclError
            end)
           [EvFontInfo self font].
Proof.
  unfold font_info. change [EvFontInfo self font] with ([EvFontInfo self font] ++ []).
  eapply log_only_bind_ok; [apply log_only_emit |].
  destruct (font_info_result env font);
    [apply log_only_ret | apply log_only_ret | apply log_only_raise].
Qed.

(** A failing [load_font] is handled where it is called: the guarded call
    returns, whatever the toolkit answers. *)
Lemma guarded_load_font_run font :
  log_only (try_except (load_font env self font) is_TclError (ret tt))
           (Ok tt) [EvLoadFont self font].
Proof.
  intros w. unfold try_except, load_font, bind, emit, ret, raise.
  destruct (load_font_ok env font); simpl; by rewrite ?add_log_nil.
Qed.

(** One file of a folder, when probing it does not raise. *)
Lemma font_file_run font_path file :
  font_info_result env (path_join font_path file) ≠ ProbeError →
  ∃ evs, log_only (font_file font_path file) (Ok tt) evs
         ∧ probed evs = (if endswith file ".ttf" then [path_join font_path file] else [])
         ∧ attempted evs =
             (if endswith file ".ttf" && is_available env (path_join font_path file)
              then [path_join font_path file] else []).
Proof.
  intros Hprobe. cbv beta. destruct (endswith file ".ttf") eqn:Hsuffix; simpl.
  - pose proof (font_info_run (path_join font_path file)) as Hinfo.
    unfold is_available.
    destruct (font_info_result env (path_join font_path file)); [| |done].
    + eexists. split;
        [eapply log_only_bind_ok; [exact Hinfo | simpl; apply guarded_load_font_run] | done].
    + eexists. split;
        [eapply log_only_bind_ok; [exact Hinfo | simpl; apply log_only_emit] | done].
  - exists []. split; [apply log_only_ret | done].
Qed.

(** One file, whatever the probe answers. *)
Lemma font_file_loader_run font_path file : loader_run (font_file font_path file).
Proof.
  unfold loader_run. cbv beta. destruct (endswith file ".ttf") eqn:Hsuffix; simpl.
  - pose proof (font_info_run (path_join font_path file)) as Hinfo.
    destruct (font_info_result env (path_join font_path file)).
    + do 2 eexists. split;
        [eapply log_only_bind_ok; [exact Hinfo | simpl; apply guarded_load_font_run] |].
      split; [done | by repeat constructor].
    + do 2 eexists. split;
        [eapply log_only_bind_ok; [exact Hinfo | simpl; apply log_only_emit] |].
      split; [done | by repeat constructor].
    + do 2 eexists. split; [by apply log_only_bind_raise |].
      split; [done | by repeat constructor].
  - exists (Ok tt), []. split; [apply log_only_ret | done].
Qed.

Lemma probed_app a b : probed (a ++ b) = probed a ++ probed b.
Proof. unfold probed. apply omap_app. Qed.

Lemma attempted_app a b : attempted (a ++ b) = attempted a ++ attempted b.
Proof. unfold attempted. apply omap_app. Qed.

(** The inner loop visits every file of the folder. *)
Lemma font_files_run font_path (files : list string) :
  (∀ file, file ∈ files → endswith file ".ttf" = true →
           font_info_result env (path_join font_path file) ≠ ProbeError) →
  ∃ evs, log_only (for_each files (font_file font_path)) (Ok tt) evs
         ∧ probed evs =
             map (path_join font_path) (List.filter (λ file, endswith file ".ttf") files)
         ∧ attempted evs =
             List.filter (is_available env)
               (map (path_join font_path) (List.filter (λ file, endswith file ".ttf") files)).
Proof.
  induction files as [|file files IH]; intros Hprobe.
  - exists []. split; [apply log_only_ret | done].
  - destruct IH as (e2 & Hrest & Hp2 & Ha2).
    { intros f Hf. apply Hprobe. by right. }
    assert (font_info_result env (path_join font_path file) ≠ ProbeError
            ∨ endswith file ".ttf" = false) as Hthis.
    { destruct (endswith file ".ttf") eqn:E; [left | by right].
      apply Hprobe; [left | done]. }
    assert (∃ evs, log_only (font_file font_path file) (Ok tt) evs
         ∧ probed evs = (if endswith file ".ttf" then [path_join font_path file] else [])
         ∧ attempted evs =
             (if endswith file ".ttf" && is_available env (path_join font_path file)
              then [path_join font_path file] else [])) as (e1 & Hfile & Hp1 & Ha1).
    { destruct Hthis as [Hok|Hno]; [by apply font_file_run |].
      cbv beta. rewrite Hno. simpl. exists []. split; [apply log_only_ret | done]. }
    exists (e1 ++ e2). split; [|split].
    + simpl for_each. by apply (log_only_bind_ok _ _ tt).
    + rewrite probed_app, Hp1, Hp2. simpl.
      by destruct (endswith file ".ttf").
    + rewrite attempted_app, Ha1, Ha2. simpl.
      destruct (endswith file ".ttf"); simpl; [|done].
      by destruct (is_available env (path_join font_path file)).
Qed.

(** The outer loop visits every folder. *)
Lemma font_folders_run fonts_path (folders : list string) :
  (∀ folder file, folder ∈ folders →
      file ∈ listdir env (path_join fonts_path folder) →
      endswith file ".ttf" = true →
      font_info_result env (path_join (path_join fonts_path folder) file) ≠ ProbeError) →
  ∃ evs, log_only (for_each folders (font_folder fonts_path)) (Ok tt) evs
         ∧ probed evs =
             flat_map (λ folder,
                 map (path_join (path_join fonts_path folder))
                     (List.filter (λ file, endswith file ".ttf")
                        (listdir env (path_join fonts_path folder)))) folders
         ∧ attempted evs =
             List.filter (is_available env)
               (flat_map (λ folder,
                 map (path_join (path_join fonts_path folder))
                     (List.filter (λ file, endswith file ".ttf")
                        (listdir env (path_join fonts_path folder)))) folders).
Proof.
  induction folders as [|folder folders IH]; intros Hprobe.
  - exists []. split; [apply log_only_ret | done].
  - destruct IH as (e2 & Hrest & Hp2 & Ha2).
    { intros d f Hd. apply Hprobe. by right. }
    destruct (font_files_run (path_join fonts_path folder)
                (listdir env (path_join fonts_path folder))) as (e1 & Hdir & Hp1 & Ha1).
    { intros f Hf. apply Hprobe; [left | done]. }
    exists (e1 ++ e2). split; [|split].
    + simpl for_each. by apply (log_only_bind_ok _ _ tt).
    + rewrite probed_app, Hp1, Hp2. done.
    + rewrite attempted_app, Ha1, Ha2. simpl. by rewrite List.filter_app.
Qed.

(** The loader only logs its own calls, and what it raises the constructor
    handles. *)
Lemma _load_fonts_loader_run : loader_run (_load_fonts env self).
Proof.
  unfold loader_run, _load_fonts.
  pose proof import_tkextrafont_run as Himport.
  destruct (tkextrafont_installed env).
  2: { do 2 eexists. split; [by apply log_only_bind_raise |].
       split; [done | by repeat constructor]. }
  pose proof load_extrafont_run as Hextra.
  destruct (load_extrafont_ok env).
  2: { do 2 eexists. split.
       - eapply log_only_bind_ok; [exact Himport |]. by apply log_only_bind_raise.
       - split; [done | by repeat constructor]. }
  destruct (for_each_loader_run (listdir env (get_fonts_directory env))
              (font_folder (get_fonts_directory env))) as (r & evs & Hloop & Hc & Hf).
  { intros folder _. apply for_each_loader_run. intros file _. apply font_file_loader_run. }
  exists r. eexists. split; [|split; [exact Hc|]].
  - eapply log_only_bind_ok; [exact Himport |].
    eapply log_only_bind_ok; [exact Hextra |]. exact Hloop.
  - by repeat constructor.
Qed.

(** The loader starts by importing the module. *)
Lemma _load_fonts_imports_first r evs :
  log_only (_load_fonts env self) r evs → ∃ rest, evs = EvImportTkextrafont :: rest.
Proof.
  intros Hrun. pose proof (Hrun fresh_world) as E.
  unfold _load_fonts, bind at 1 in E.
  rewrite import_tkextrafont_run in E.
  destruct (tkextrafont_installed env).
  - unfold bind at 1 in E. rewrite load_extrafont_run in E.
    destruct (load_extrafont_ok env).
    + destruct (for_each_loader_run (listdir env (get_fonts_directory env))
              (font_folder (get_fonts_directory env))) as (r' & evs' & Hloop & _).
      { intros folder _. apply for_each_loader_run. intros file _.
        apply font_file_loader_run. }
      rewrite Hloop in E. rewrite !add_log_app in E.
      inversion E as [[Hr Hl]]. simpl in Hl. eauto.
    + rewrite add_log_app in E. inversion E as [[Hr Hl]]. simpl in Hl. eauto.
  - inversion E as [[Hr Hl]]. simpl in Hl. eauto.
Qed.

(** Without the module nothing but the import is tried. *)
Lemma _load_fonts_no_module :
  tkextrafont_installed env = false →
  log_only (_load_fonts env self) (Raise ImportError) [EvImportTkextrafont].
Proof.
  intros Hmissing. unfold _load_fonts. apply log_only_bind_raise.
  pose proof import_tkextrafont_run as H. by rewrite Hmissing in H.
Qed.

End FontLoader.

(** ** Objects of the heap *)

Lemma get_obj_run self w o :
  heap w !! self = Some o → get_obj self w = (Ok o, w).
Proof. intros H. unfold get_obj. by rewrite H. Qed.

Lemma update_obj_run self f w o :
  heap w !! self = Some o →
  update_obj self f w = (Ok tt, with_heap w (<[self:=f o]> (heap w))).
Proof. intros H. unfold update_obj. by rewrite H. Qed.

Lemma lookup_updated (h : list ThemedTk_obj) self o o' :
  h !! self = Some o → <[self:=o']> h !! self = Some o'.
Proof. intros H. apply list_lookup_insert_eq. by eapply lookup_lt_Some. Qed.

(** ** [set_theme] *)

Section SetTheme.
Variable env : Env.

(** When the theming capability rejects the name, nothing else happens. *)
Lemma set_theme_rejected self theme_name toplevel background w :
  theme_loads env theme_name = false →
  set_theme env self theme_name toplevel background w
  = (Raise TclError, add_log w [EvWidgetSetTheme self theme_name]).
Proof.
  intros Hno. unfold set_theme, ThemedWidget_set_theme, bind, emit, raise.
  by rewrite Hno.
Qed.

(** Symbolic run of [set_theme] on an object of the heap. *)
Lemma set_theme_run self theme_name toplevel background w o :
  heap w !! self = Some o →
  theme_loads env theme_name = true →
  let color := frame_background env theme_name in
  let hook := __toplevel__ (next_fid w) self color in
  let o1 := set_theme_in_use theme_name o in
  let o2 := if is_True background then set_background_option color o1 else o1 in
  let font_step :=
    match FONTS !! theme_name, font_support o with
    | Some font, Some fs => if truthy fs then Some font else None
    | _, _ => None
    end in
  let o3 := match font_step with Some font => set_default_font font o2 | None => o2 end in
  set_theme env self theme_name toplevel background w
  = (match FONTS !! theme_name, font_support o with
     | Some _, None => Raise AttributeError
     | _, _ => Ok tt
     end,
     mkWorld (if is_True toplevel then hook else Toplevel__init__ w)
             (<[self:=o3]> (heap w))
             (if is_True toplevel then S (next_fid w) else next_fid w)
             (log w ++ [EvWidgetSetTheme self theme_name]
                    ++ (if is_True background then [EvConfigBackground self color] else [])
                    ++ (if is_True toplevel then [EvRebindToplevelInit hook] else [])
                    ++ (match font_step with
                        | Some font => [EvStyleConfigureFont self font]
                        | None => []
                        end))).
Proof.
  intros Hself Hloads. simpl.
  pose proof (lookup_lt_Some _ _ _ Hself) as Hlt.
  unfold set_theme, ThemedWidget_set_theme, Style_lookup, config_background, configure_font,
    _setup_toplevel_hook, getattr.
  unfold bind at 1. unfold bind at 1. unfold emit at 1. rewrite Hloads.
  rewrite (update_obj_run _ _ _ o) by done.
  unfold bind at 1. unfold bind at 1.
  rewrite (get_obj_run _ _ (set_theme_in_use theme_name o))
    by (simpl; by eapply lookup_updated).
  unfold ret at 1. simpl theme_in_use. fold (frame_background env theme_name).
  set (color := frame_background env theme_name).
  clearbody color. destruct o as [[fs|] saved bg_opt theme_opt font_opt].
  all: destruct (is_True background), (is_True toplevel), (FONTS !! theme_name) as [font|];
    unfold bind, emit, ret, raise, get_obj, update_obj, with_heap, add_log; simpl.
  all: repeat (rewrite list_lookup_insert_eq by (rewrite ?length_insert; lia); simpl).
  all: try match goal with |- context [truthy ?v] => destruct (truthy v) end; simpl.
  all: repeat (rewrite list_lookup_insert_eq by (rewrite ?length_insert; lia); simpl).
  all: rewrite ?list_insert_insert_eq, <- ?app_assoc, ?app_nil_r; simpl.
  all: reflexivity.
Qed.

End SetTheme.
(** ** The constructor *)

Lemma lookup_new (h : list ThemedTk_obj) o : (h ++ [o]) !! length h = Some o.
Proof. by apply list_lookup_middle. Qed.

Lemma insert_new (h : list ThemedTk_obj) o o' : <[length h:=o']> (h ++ [o]) = h ++ [o'].
Proof. rewrite insert_app_r_alt by lia. by rewrite Nat.sub_diag. Qed.

Section Constructor.
Variable env : Env.

(** The options are read from the caller's dict, whatever was popped
    before them. *)
Lemma __init___options self args kwargs :
  __init__ env self args kwargs
  = (Tk__init__ env self args (remaining kwargs) >>
     ThemedWidget__init__ self >>
     try_except
       (_load_fonts env self >>
        update_obj self (set_font_support (py_and (PBool true) (option_fonts kwargs))))
       catches_TclError_ImportError
       (update_obj self (set_font_support (PBool false))) >>
     (match initial_theme env kwargs with
      | Some theme_name =>
          set_theme env self theme_name (option_toplevel kwargs) (option_background kwargs)
      | None => ret tt
      end) >>
     λ w, update_obj self (set___init__toplevel (Toplevel__init__ w)) w).
Proof.
  unfold __init__, remaining, option_fonts, option_toplevel, option_background,
    initial_theme, pop.
  cbv beta iota zeta. simpl fst. simpl snd.
  rewrite !lookup_delete_ne by done.
  destruct (kwargs !! "theme") as [[| | |theme_name]|]; simpl; try reflexivity.
  by destruct (bool_decide (theme_name ∈ get_themes env)).
Qed.

(** A constructor call the toolkit rejects stops there. *)
Lemma __init___rejected self args kwargs w :
  Tk_accepts env args (remaining kwargs) = false →
  __init__ env self args kwargs w
  = (Raise TclError, add_log w [EvTkInit self args (remaining kwargs)]).
Proof.
  intros Hno. rewrite __init___options.
  unfold Tk__init__, bind, emit, raise. by rewrite Hno.
Qed.

(** Up to the theme: the toolkit is initialised, the loader has run and
    [font_support] is assigned. *)
Lemma __init___run self args kwargs w o rf evf :
  heap w !! self = Some o →
  Tk_accepts env args (remaining kwargs) = true →
  log_only (_load_fonts env self) rf evf →
  caught rf →
  __init__ env self args kwargs w
  = ((match initial_theme env kwargs with
      | Some theme_name =>
          set_theme env self theme_name (option_toplevel kwargs) (option_background kwargs)
      | None => ret tt
      end) >>
     λ w, update_obj self (set___init__toplevel (Toplevel__init__ w)) w)
      (mkWorld (Toplevel__init__ w)
         (<[self:=set_font_support
                    (match rf with
                     | Ok _ => py_and (PBool true) (option_fonts kwargs)
                     | Raise _ => PBool false
                     end) o]> (heap w))
         (next_fid w)
         (log w ++ [EvTkInit self args (remaining kwargs); EvThemedWidgetInit self] ++ evf)).
Proof.
  intros Hself Haccepts Hfonts Hcaught. rewrite __init___options.
  unfold Tk__init__, ThemedWidget__init__.
  unfold bind at 1. unfold bind at 1. unfold emit at 1. rewrite Haccepts.
  unfold ret at 1. unfold bind at 1. unfold emit at 1. unfold bind at 1.
  unfold try_except. unfold bind at 1. rewrite Hfonts.
  destruct rf as [[]|e].
  - rewrite (update_obj_run _ _ _ o) by done.
    unfold add_log, with_heap; simpl. by rewrite <- !app_assoc.
  - simpl in Hcaught. rewrite Hcaught.
    rewrite (update_obj_run _ _ _ o) by done.
    unfold add_log, with_heap; simpl. by rewrite <- !app_assoc.
Qed.

End Constructor.

(** ** Constructing a window: the four ways a construction ends *)

Section Construction.
Variable env : Env.
Variable w : World.
Variables (args : list pyval) (kwargs : gmap string pyval).

Local Abbreviation self := (length (heap w)).

Lemma ThemedTk_rejected :
  Tk_accepts env args (remaining kwargs) = false →
  ThemedTk env args kwargs w
  = (Raise TclError,
     mkWorld (Toplevel__init__ w) (heap w ++ [blank_obj]) (next_fid w)
             (log w ++ [EvTkInit self args (remaining kwargs)])).
Proof.
  intros Hno. unfold ThemedTk, bind. by rewrite __init___rejected.
Qed.

Lemma ThemedTk_no_theme rf evf :
  Tk_accepts env args (remaining kwargs) = true →
  log_only (_load_fonts env self) rf evf → caught rf →
  initial_theme env kwargs = None →
  ThemedTk env args kwargs w
  = (Ok self,
     mkWorld (Toplevel__init__ w)
       (heap w ++ [mkThemedTk (Some (font_flag rf kwargs)) (Some (Toplevel__init__ w))
                              None None None])
       (next_fid w)
       (log w ++ [EvTkInit self args (remaining kwargs); EvThemedWidgetInit self] ++ evf)).
Proof.
  intros Haccepts Hfonts Hcaught Hnone. unfold ThemedTk. unfold bind at 1.
  rewrite (__init___run env _ _ _ _ blank_obj rf evf) by (done || apply lookup_new).
  rewrite Hnone. simpl heap. rewrite insert_new.
  unfold bind, ret, update_obj; simpl. rewrite lookup_new.
  unfold with_heap; simpl. by rewrite insert_new.
Qed.

Lemma ThemedTk_theme_rejected rf evf theme_name :
  Tk_accepts env args (remaining kwargs) = true →
  log_only (_load_fonts env self) rf evf → caught rf →
  initial_theme env kwargs = Some theme_name →
  theme_loads env theme_name = false →
  ThemedTk env args kwargs w
  = (Raise TclError,
     mkWorld (Toplevel__init__ w)
       (heap w ++ [mkThemedTk (Some (font_flag rf kwargs)) None None None None])
       (next_fid w)
       (log w ++ [EvTkInit self args (remaining kwargs); EvThemedWidgetInit self] ++ evf
              ++ [EvWidgetSetTheme self theme_name])).
Proof.
  intros Haccepts Hfonts Hcaught Htheme Hno. unfold ThemedTk. unfold bind at 1.
  rewrite (__init___run env _ _ _ _ blank_obj rf evf) by (done || apply lookup_new).
  rewrite Htheme. simpl heap. rewrite insert_new.
  unfold bind at 1. rewrite set_theme_rejected by done.
  unfold add_log; simpl. by rewrite <- !app_assoc.
Qed.

Lemma ThemedTk_themed rf evf theme_name :
  Tk_accepts env args (remaining kwargs) = true →
  log_only (_load_fonts env self) rf evf → caught rf →
  initial_theme env kwargs = Some theme_name →
  theme_loads env theme_name = true →
  let color := frame_background env theme_name in
  let hook := __toplevel__ (next_fid w) self color in
  let toplevel := option_toplevel kwargs in
  let background := option_background kwargs in
  let bound := if is_True toplevel then hook else Toplevel__init__ w in
  let font_step :=
    match FONTS !! theme_name with
    | Some font => if truthy (font_flag rf kwargs) then Some font else None
    | None => None
    end in
  ThemedTk env args kwargs w
  = (Ok self,
     mkWorld bound
       (heap w ++ [mkThemedTk (Some (font_flag rf kwargs)) (Some bound)
                              (if is_True background then Some color else None)
                              (Some theme_name) font_step])
       (if is_True toplevel then S (next_fid w) else next_fid w)
       (log w ++ [EvTkInit self args (remaining kwargs); EvThemedWidgetInit self] ++ evf
              ++ [EvWidgetSetTheme self theme_name]
              ++ (if is_True background then [EvConfigBackground self color] else [])
              ++ (if is_True toplevel then [EvRebindToplevelInit hook] else [])
              ++ (match font_step with
                  | Some font => [EvStyleConfigureFont self font]
                  | None => []
                  end))).
Proof.
  intros Haccepts Hfonts Hcaught Htheme Hloads. simpl.
  unfold ThemedTk. unfold bind at 1.
  rewrite (__init___run env _ _ _ _ blank_obj rf evf) by (done || apply lookup_new).
  rewrite Htheme. simpl heap. rewrite insert_new.
  fold (font_flag rf kwargs). unfold bind at 1.
  rewrite (set_theme_run env _ _ _ _ _ (set_font_support (font_flag rf kwargs) blank_obj))
    by (done || apply lookup_new).
  simpl. rewrite insert_new.
  destruct (FONTS !! theme_name) as [font|]; simpl.
  - destruct (truthy (font_flag rf kwargs)), (is_True (option_toplevel kwargs)),
      (is_True (option_background kwargs));
      unfold update_obj, ret; simpl; rewrite lookup_new; unfold with_heap; simpl;
      rewrite insert_new; simpl; rewrite <- ?app_assoc; reflexivity.
  - destruct (is_True (option_toplevel kwargs)), (is_True (option_background kwargs));
      unfold update_obj, ret; simpl; rewrite lookup_new; unfold with_heap; simpl;
      rewrite insert_new; simpl; rewrite <- ?app_assoc; reflexivity.
Qed.

End Construction.

(** ** Events by kind *)

Lemma rebinds_app a b : rebinds (a ++ b) = rebinds a + rebinds b.
Proof. unfold rebinds. by rewrite List.filter_app, length_app. Qed.

Lemma rebinds_cons e evs :
  rebinds (e :: evs)
  = (match e with EvRebindToplevelInit _ => 1 | _ => 0 end) + rebinds evs.
Proof. unfold rebinds. simpl. by destruct e. Qed.

Lemma font_events_no_rebind evs :
  Forall (λ e, is_font_event e = true) evs → rebinds evs = 0.
Proof.
  induction 1 as [|e evs He _ IH]; [done |].
  change (e :: evs) with ([e] ++ evs). rewrite rebinds_app, IH.
  by destruct e.
Qed.

Lemma font_events_no_theme_effect evs :
  Forall (λ e, is_font_event e = true) evs →
  Forall (λ e, is_theme_effect e = false) evs.
Proof. intros H. eapply Forall_impl; [exact H |]. by intros []. Qed.

Lemma font_events_no_Tk_init evs :
  Forall (λ e, is_font_event e = true) evs →
  Forall (λ e, is_Tk_init e = false) evs.
Proof. intros H. eapply Forall_impl; [exact H |]. by intros []. Qed.

(** ** The dict operations *)

Lemma setdefault_absent k v (d : gmap string pyval) :
  d !! k = None → setdefault k v d = <[k:=v]> d.
Proof. intros H. unfold setdefault. by rewrite H. Qed.

Lemma setdefault_present k v x (d : gmap string pyval) :
  d !! k = Some x → setdefault k v d = d.
Proof. intros H. unfold setdefault. by rewrite H. Qed.

Lemma remaining_lookup_option kwargs k :
  k ∈ ["theme"; "toplevel"; "background"; "fonts"] → remaining kwargs !! k = None.
Proof.
  intros Hk. unfold remaining, pop; simpl.
  repeat (apply elem_of_cons in Hk as [->|Hk]);
    [| | | | by apply elem_of_nil in Hk];
    rewrite ?lookup_delete_eq, ?lookup_delete_ne by done; try done;
    rewrite ?lookup_delete_eq; done.
Qed.

Lemma remaining_lookup_other kwargs k :
  k ∉ ["theme"; "toplevel"; "background"; "fonts"] → remaining kwargs !! k = kwargs !! k.
Proof.
  intros Hk. unfold remaining, pop; simpl.
  rewrite !lookup_delete_ne; [done | | | |]; intros ?; subst k; apply Hk; set_solver.
Qed.

Lemma initial_theme_None env kwargs :
  (∀ theme_name, kwargs !! "theme" = Some (PStr theme_name) → theme_name ∉ get_themes env) →
  initial_theme env kwargs = None.
Proof.
  intros H. unfold initial_theme.
  destruct (kwargs !! "theme") as [[| | |theme_name]|]; try done.
  by rewrite bool_decide_eq_false_2 by by apply H.
Qed.

(** ** Calling the hook *)

(** A closure whose object saved the closure itself as the constructor to
    delegate to never reaches the toolkit. *)
Lemma call_delegating_to_itself depth fid self color args kwargs w :
  attr w self __init__toplevel = Some (__toplevel__ fid self color) →
  call depth (__toplevel__ fid self color) args kwargs w = (Raise RecursionError, w).
Proof.
  intros Hsaved. revert kwargs.
  induction depth as [|depth IH]; intros kwargs; [done |].
  simpl. unfold bind, getattr, bind, get_obj.
  unfold attr in Hsaved. destruct (heap w !! self) as [o|]; [|done].
  simpl in Hsaved. rewrite Hsaved. unfold ret. apply IH.
Qed.

(** A closure whose object saved the toolkit's constructor delegates to it
    with the background defaulted. *)
Lemma call_delegating_to_orig depth fid self color args kwargs w :
  attr w self __init__toplevel = Some Toplevel_orig →
  call (S (S depth)) (__toplevel__ fid self color) args kwargs w
  = (Ok tt, add_log w [EvToplevelOrigInit args (setdefault "background" (PStr color) kwargs)]).
Proof.
  intros Hsaved. simpl. unfold bind, getattr, bind, get_obj.
  unfold attr in Hsaved. destruct (heap w !! self) as [o|]; [|done].
  simpl in Hsaved. by rewrite Hsaved.
Qed.

(** ** Later [set_theme] calls *)

Section Later.
Variable env : Env.
Variable self : nat.

Lemma set_theme_step theme_name toplevel background w o :
  heap w !! self = Some o →
  let w' := (set_theme env self theme_name toplevel background w).2 in
  let rebinding := theme_loads env theme_name && is_True toplevel in
  (∃ o', heap w' !! self = Some o' ∧ __init__toplevel o' = __init__toplevel o)
  ∧ rebinds (log w') = rebinds (log w) + (if rebinding then 1 else 0)
  ∧ Toplevel__init__ w'
    = (if rebinding then __toplevel__ (next_fid w) self (frame_background env theme_name)
       else Toplevel__init__ w).
Proof.
  intros Hself. simpl. destruct (theme_loads env theme_name) eqn:Hloads.
  - rewrite (set_theme_run env _ _ _ _ _ o) by done. simpl.
    split; [|split].
    + eexists. split; [by eapply lookup_updated |].
      destruct (FONTS !! theme_name), (font_support o) as [fs|];
        try destruct (truthy fs); by destruct (is_True background).
    + rewrite !rebinds_app.
      destruct (FONTS !! theme_name), (font_support o) as [fs|];
        try destruct (truthy fs); destruct (is_True background), (is_True toplevel);
        unfold rebinds; simpl; lia.
    + done.
  - rewrite set_theme_rejected by done. simpl.
    split; [by eauto | split; [|done]].
    rewrite rebinds_app. unfold rebinds; simpl; lia.
Qed.

Lemma set_theme_calls_summary calls w o :
  heap w !! self = Some o →
  let w' := set_theme_calls env self calls w in
  (∃ o', heap w' !! self = Some o' ∧ __init__toplevel o' = __init__toplevel o)
  ∧ rebinds (log w') = rebinds (log w) + rebinding_calls env calls
  ∧ (Toplevel__init__ w ≠ Toplevel_orig ∨ 0 < rebinding_calls env calls →
     Toplevel__init__ w' ≠ Toplevel_orig).
Proof.
  simpl. revert w o. induction calls as [|[[theme_name toplevel] background] calls IH];
    intros w o Hself.
  - simpl. split; [by eauto | split; [unfold rebinding_calls; simpl; lia |]].
    intros [H|H]; [done | unfold rebinding_calls in H; simpl in H; lia].
  - destruct (set_theme_step theme_name toplevel background w o Hself)
      as ((o1 & Ho1 & Hsaved1) & Hcount1 & Hbound1).
    destruct (IH _ o1 Ho1) as ((o2 & Ho2 & Hsaved2) & Hcount2 & Hbound2).
    simpl set_theme_calls. split; [|split].
    + exists o2. split; [done | congruence].
    + rewrite Hcount2, Hcount1. unfold rebinding_calls. simpl.
      destruct (theme_loads env theme_name && is_True toplevel); simpl; lia.
    + intros Hpre. apply Hbound2. rewrite Hbound1.
      unfold rebinding_calls in Hpre |- *. simpl in Hpre.
      destruct (theme_loads env theme_name && is_True toplevel); simpl in *;
        [by left |].
      destruct Hpre as [H|H]; [by left | by right].
Qed.

End Later.

(** ** What a construction leaves behind *)

Lemma attr_new {A} (T : fn) (h : list ThemedTk_obj) o n (l : list event)
    (field : ThemedTk_obj → option A) :
  attr (mkWorld T (h ++ [o]) n l) (length h) field = field o.
Proof. unfold attr; simpl. by rewrite lookup_new. Qed.

(** Splits a construction into its four outcomes and rewrites it. *)
Ltac construction env w args kwargs :=
  let rf := fresh "rf" in
  let evf := fresh "evf" in
  let Hfonts := fresh "Hfonts" in
  let Hcaught := fresh "Hcaught" in
  let Hkind := fresh "Hkind" in
  let Haccepts := fresh "Haccepts" in
  let Htheme := fresh "Htheme" in
  let Hloads := fresh "Hloads" in
  let theme_name := fresh "theme_name" in
  destruct (_load_fonts_loader_run env (length (heap w)))
    as (rf & evf & Hfonts & Hcaught & Hkind);
  destruct (Tk_accepts env args (remaining kwargs)) eqn:Haccepts;
    [ destruct (initial_theme env kwargs) as [theme_name|] eqn:Htheme;
      [ destruct (theme_loads env theme_name) eqn:Hloads;
        [ rewrite (ThemedTk_themed env w args kwargs rf evf theme_name) by done
        | rewrite (ThemedTk_theme_rejected env w args kwargs rf evf theme_name) by done ]
      | rewrite (ThemedTk_no_theme env w args kwargs rf evf) by done ]
    | rewrite (ThemedTk_rejected env w args kwargs) by done ].

Lemma ThemedTk_summary env w args kwargs :
  let w' := (ThemedTk env args kwargs w).2 in
  (∃ o, heap w' !! length (heap w) = Some o)
  ∧ rebinds (log w') = rebinds (log w) + constructor_rebinds env args kwargs
  ∧ (Toplevel__init__ w ≠ Toplevel_orig ∨ 0 < constructor_rebinds env args kwargs →
     Toplevel__init__ w' ≠ Toplevel_orig).
Proof.
  simpl. unfold constructor_rebinds. construction env w args kwargs; simpl.
  - split; [rewrite lookup_new; by eauto | split].
    + repeat (rewrite rebinds_app || rewrite rebinds_cons).
      rewrite (font_events_no_rebind evf) by done.
      destruct (FONTS !! theme_name);
        destruct (truthy (font_flag rf kwargs)),
          (is_True (option_background kwargs)), (is_True (option_toplevel kwargs));
        unfold rebinds; simpl; lia.
    + destruct (is_True (option_toplevel kwargs)); [done |].
      intros [H|H]; [done | simpl in H; lia].
  - split; [rewrite lookup_new; by eauto | split].
    + repeat (rewrite rebinds_app || rewrite rebinds_cons).
      rewrite (font_events_no_rebind evf) by done.
      unfold rebinds; simpl; lia.
    + intros [H|H]; [done | simpl in H; lia].
  - split; [rewrite lookup_new; by eauto | split].
    + repeat (rewrite rebinds_app || rewrite rebinds_cons).
      rewrite (font_events_no_rebind evf) by done.
      unfold rebinds; simpl; lia.
    + intros [H|H]; [done | lia].
  - split; [rewrite lookup_new; by eauto |].
    destruct (initial_theme env kwargs); simpl.
    all: split; [repeat (rewrite rebinds_app || rewrite rebinds_cons);
                 unfold rebinds; simpl; lia |].
    all: intros [H|H]; [done | lia].
Qed.

(** The flag a construction leaves in [font_support]. *)
Lemma constructed_font_support env w args kwargs :
  Tk_accepts env args (remaining kwargs) = true →
  ∃ rf evf, log_only (_load_fonts env (length (heap w))) rf evf
            ∧ attr (ThemedTk env args kwargs w).2 (length (heap w)) font_support
              = Some (font_flag rf kwargs).
Proof.
  intros Haccepts'.
  construction env w args kwargs; [| | |done];
    exists rf, evf; (split; [done |]); simpl; by rewrite attr_new.
Qed.

Lemma font_flag_off rf kwargs :
  option_fonts kwargs = PBool false → font_flag rf kwargs = PBool false.
Proof. intros Hoff. unfold font_flag. rewrite Hoff. by destruct rf. Qed.

(** ** Function objects stay numbered *)

Lemma fresh_world_fn_known : fn_known fresh_world (Toplevel__init__ fresh_world).
Proof. exact I. Qed.

Lemma set_theme_fn_known env self theme_name toplevel background w o :
  heap w !! self = Some o →
  fn_known w (Toplevel__init__ w) →
  let w' := (set_theme env self theme_name toplevel background w).2 in
  fn_known w' (Toplevel__init__ w').
Proof.
  intros Hself Hknown. simpl. destruct (theme_loads env theme_name) eqn:Hloads.
  - rewrite (set_theme_run env _ _ _ _ _ o) by done. simpl.
    destruct (is_True toplevel); simpl; [lia | done].
  - by rewrite set_theme_rejected.
Qed.

Lemma ThemedTk_fn_known env w args kwargs :
  fn_known w (Toplevel__init__ w) →
  let w' := (ThemedTk env args kwargs w).2 in
  fn_known w' (Toplevel__init__ w').
Proof.
  intros Hknown. simpl. construction env w args kwargs; simpl; try done.
  destruct (is_True (option_toplevel kwargs)); simpl; [lia | done].
Qed.

(** * The properties of the specification *)

(** ** Construction *)

(** C9. For every construction call, the first thing the constructor does
    is to call the toolkit's root-window constructor, once, with the
    positional arguments unchanged and with the keyword arguments from
    which exactly the four options [theme], [toplevel], [background] and
    [fonts] are removed: these four are absent and every other key keeps
    its value. *)
Theorem C9_options_stripped_before_Tk_init env w args kwargs :
  ∃ rest,
    log (ThemedTk env args kwargs w).2
    = log w ++ EvTkInit (length (heap w)) args (remaining kwargs) :: rest
    ∧ Forall (λ e, is_Tk_init e = false) rest
    ∧ (∀ k, k ∈ ["theme"; "toplevel"; "background"; "fonts"] →
            remaining kwargs !! k = None)
    ∧ (∀ k, k ∉ ["theme"; "toplevel"; "background"; "fonts"] →
            remaining kwargs !! k = kwargs !! k).
Proof.
  assert (∃ rest,
    log (ThemedTk env args kwargs w).2
    = log w ++ EvTkInit (length (heap w)) args (remaining kwargs) :: rest
    ∧ Forall (λ e, is_Tk_init e = false) rest) as (rest & Hlog & Hrest).
  { construction env w args kwargs; simpl; eexists; (split; [reflexivity |]).
    - constructor; [done |]. apply Forall_app. split; [by apply font_events_no_Tk_init |].
      constructor; [done |].
      destruct (is_True (option_background kwargs)), (is_True (option_toplevel kwargs)),
        (FONTS !! theme_name); try destruct (truthy (font_flag rf kwargs));
        by repeat constructor.
    - constructor; [done |]. apply Forall_app. split; [by apply font_events_no_Tk_init |].
      by repeat constructor.
    - constructor; [done |]. by apply font_events_no_Tk_init.
    - constructor. }
  exists rest. split; [done | split; [done | split]].
  - apply remaining_lookup_option.
  - apply remaining_lookup_other.
Qed.

Lemma C9_options_stripped_before_Tk_init_witness :
  ∃ rest,
    log (ThemedTk sample_env [PStr "app"]
           {[ "theme" := PStr "arc"; "fonts" := PBool true;
              "className" := PStr "Demo" ]} fresh_world).2
    = EvTkInit 0 [PStr "app"] {[ "className" := PStr "Demo" ]} :: rest.
Proof.
  destruct (C9_options_stripped_before_Tk_init sample_env fresh_world [PStr "app"]
              {[ "theme" := PStr "arc"; "fonts" := PBool true;
                 "className" := PStr "Demo" ]}) as (rest & Hlog & _).
  exists rest. exact Hlog.
Defined.

(** C4. When the theme given at construction is not a name of the theme
    registry, or no theme is given, and the toolkit constructor accepts
    its arguments, construction returns the new window without raising;
    no theme is in use, the window background and the default font are
    untouched, [Toplevel.__init__] is still bound to what it was, and no
    call of [set_theme] (theme application, background, hook, font) is
    made. *)
Theorem C4_unknown_theme_is_a_silent_noop env w args kwargs :
  Tk_accepts env args (remaining kwargs) = true →
  (∀ theme_name, kwargs !! "theme" = Some (PStr theme_name) →
                 theme_name ∉ get_themes env) →
  ∃ flag evs,
    ThemedTk env args kwargs w
    = (Ok (length (heap w)),
       mkWorld (Toplevel__init__ w)
         (heap w ++ [mkThemedTk (Some flag) (Some (Toplevel__init__ w)) None None None])
         (next_fid w) (log w ++ evs))
    ∧ Forall (λ e, is_theme_effect e = false) evs.
Proof.
  intros Haccepts Hunknown.
  destruct (_load_fonts_loader_run env (length (heap w)))
    as (rf & evf & Hfonts & Hcaught & Hkind).
  rewrite (ThemedTk_no_theme env w args kwargs rf evf)
    by (done || by apply initial_theme_None).
  do 2 eexists. split; [reflexivity |].
  do 2 (constructor; [done |]). by apply font_events_no_theme_effect.
Qed.

Lemma C4_unknown_theme_is_a_silent_noop_witness :
  ∃ flag evs,
    ThemedTk sample_env []
      {[ "theme" := PStr "no-such-theme"; "toplevel" := PBool true;
         "background" := PBool true; "fonts" := PBool true ]} fresh_world
    = (Ok 0,
       mkWorld Toplevel_orig [mkThemedTk (Some flag) (Some Toplevel_orig) None None None]
               0 ([] ++ evs))
    ∧ Forall (λ e, is_theme_effect e = false) evs.
Proof.
  apply (C4_unknown_theme_is_a_silent_noop sample_env fresh_world []
           {[ "theme" := PStr "no-such-theme"; "toplevel" := PBool true;
              "background" := PBool true; "fonts" := PBool true ]}).
  - reflexivity.
  - intros theme_name Htheme. vm_compute in Htheme.
    injection Htheme as <-. intros Hin.
    apply (bool_decide_pack _) in Hin. vm_compute in Hin. exact Hin.
Defined.

(** ** Font support *)

(** C6. When the module [tkextrafont] cannot be imported, the loader
    raises [ImportError] right at the import; the constructor handles it:
    provided the toolkit constructor accepts its arguments and the theme
    it applies (if any) loads, construction returns the window, and its
    [font_support] is [False]. *)
Theorem C6_missing_font_module_is_handled env w args kwargs :
  tkextrafont_installed env = false →
  Tk_accepts env args (remaining kwargs) = true →
  (∀ theme_name, initial_theme env kwargs = Some theme_name →
                 theme_loads env theme_name = true) →
  (∀ w0, _load_fonts env (length (heap w)) w0
         = (Raise ImportError, add_log w0 [EvImportTkextrafont]))
  ∧ ∃ w', ThemedTk env args kwargs w = (Ok (length (heap w)), w')
          ∧ attr w' (length (heap w)) font_support = Some (PBool false).
Proof.
  intros Hmissing Haccepts Hloads.
  pose proof (_load_fonts_no_module env (length (heap w)) Hmissing) as Himport.
  split; [exact Himport |].
  destruct (initial_theme env kwargs) as [theme_name|] eqn:Htheme.
  - rewrite (ThemedTk_themed env w args kwargs (Raise ImportError) [EvImportTkextrafont]
               theme_name) by (done || by apply Hloads).
    eexists. split; [reflexivity |]. by rewrite attr_new.
  - rewrite (ThemedTk_no_theme env w args kwargs (Raise ImportError) [EvImportTkextrafont])
      by done.
    eexists. split; [reflexivity |]. by rewrite attr_new.
Qed.

Lemma C6_missing_font_module_is_handled_witness :
  ∃ w', ThemedTk sample_env_no_module []
          {[ "theme" := PStr "adapta"; "fonts" := PBool true ]} fresh_world
        = (Ok 0, w')
        ∧ attr w' 0 font_support = Some (PBool false).
Proof.
  refine (proj2 (C6_missing_font_module_is_handled sample_env_no_module fresh_world []
                   {[ "theme" := PStr "adapta"; "fonts" := PBool true ]} _ _ _)).
  - reflexivity.
  - reflexivity.
  - intros theme_name Htheme. vm_compute in Htheme. injection Htheme as <-.
    vm_compute. reflexivity.
Defined.

(** C7. In every construction that the toolkit constructor accepts: when
    the [fonts] option is [False] (given so, or left out), the window's
    [font_support] is [False], whatever the font module and the loader do;
    and [font_support] is [True] only if the [fonts] option is [True] and
    the loader returned without raising. *)
Theorem C7_font_support_needs_fonts_option env w args kwargs :
  Tk_accepts env args (remaining kwargs) = true →
  let self := length (heap w) in
  let w' := (ThemedTk env args kwargs w).2 in
  (option_fonts kwargs = PBool false →
   attr w' self font_support = Some (PBool false))
  ∧ (attr w' self font_support = Some (PBool true) →
     option_fonts kwargs = PBool true ∧ ∀ w0, (_load_fonts env self w0).1 = Ok tt).
Proof.
  intros Haccepts. simpl.
  destruct (constructed_font_support env w args kwargs Haccepts)
    as (rf & evf & Hfonts & Hflag).
  rewrite Hflag. split.
  - intros Hoff. by rewrite font_flag_off.
  - intros Hon. destruct rf as [[]|e]; [|done].
    split; [by injection Hon |]. intros w0. by rewrite Hfonts.
Qed.

Lemma C7_font_support_needs_fonts_option_witness :
  attr (ThemedTk sample_env [] {[ "theme" := PStr "adapta"; "fonts" := PBool false ]}
          fresh_world).2 0 font_support
  = Some (PBool false).
Proof.
  refine (proj1 (C7_font_support_needs_fonts_option sample_env fresh_world []
                   {[ "theme" := PStr "adapta"; "fonts" := PBool false ]} _) _);
    reflexivity.
Defined.

(** C10. Every construction that the toolkit constructor accepts runs the
    font loader, with the same calls whatever the [fonts] option is: right
    after the two base-class initialisers the log holds the loader's calls,
    which start with the import of [tkextrafont]; with [fonts] off the
    window's [font_support] is [False] all the same. *)
Theorem C10_fonts_are_loaded_whatever_the_option env w args kwargs :
  Tk_accepts env args (remaining kwargs) = true →
  let self := length (heap w) in
  let w' := (ThemedTk env args kwargs w).2 in
  let loaded := log (_load_fonts env self fresh_world).2 in
  ∃ rest post,
    log w' = log w ++ [EvTkInit self args (remaining kwargs); EvThemedWidgetInit self]
                   ++ loaded ++ post
    ∧ loaded = EvImportTkextrafont :: rest
    ∧ (option_fonts kwargs = PBool false →
       attr w' self font_support = Some (PBool false)).
Proof.
  intros Haccepts. simpl.
  assert (option_fonts kwargs = PBool false →
          attr (ThemedTk env args kwargs w).2 (length (heap w)) font_support
          = Some (PBool false)) as Hoff.
  { intros Hoff.
    destruct (constructed_font_support env w args kwargs Haccepts) as (rf & evf & _ & ->).
    by rewrite font_flag_off. }
  destruct (_load_fonts_loader_run env (length (heap w)))
    as (rf0 & evf0 & Hfonts0 & _ & _).
  destruct (_load_fonts_imports_first env _ _ _ Hfonts0) as (rest & ->).
  assert (log (_load_fonts env (length (heap w)) fresh_world).2
          = EvImportTkextrafont :: rest) as Hloaded.
  { by rewrite Hfonts0. }
  rewrite Hloaded. exists rest.
  assert (∃ post,
    log (ThemedTk env args kwargs w).2
    = log w ++ [EvTkInit (length (heap w)) args (remaining kwargs);
                EvThemedWidgetInit (length (heap w))]
            ++ (EvImportTkextrafont :: rest) ++ post) as (post & Hlog).
  { construction env w args kwargs; [| | |done];
      destruct (log_only_fun _ _ _ _ _ Hfonts0 Hfonts) as [_ <-]; simpl.
    - eexists. reflexivity.
    - eexists. reflexivity.
    - exists []. by rewrite app_nil_r. }
  exists post. by split.
Qed.

Lemma C10_fonts_are_loaded_whatever_the_option_witness :
  ∃ rest post,
    log (ThemedTk sample_env [] {[ "fonts" := PBool false ]} fresh_world).2
    = log fresh_world
        ++ [EvTkInit 0 [] (remaining {[ "fonts" := PBool false ]}); EvThemedWidgetInit 0]
        ++ log (_load_fonts sample_env 0 fresh_world).2 ++ post
    ∧ log (_load_fonts sample_env 0 fresh_world).2 = EvImportTkextrafont :: rest
    ∧ (option_fonts {[ "fonts" := PBool false ]} = PBool false →
       attr (ThemedTk sample_env [] {[ "fonts" := PBool false ]} fresh_world).2 0
            font_support = Some (PBool false)).
Proof.
  apply (C10_fonts_are_loaded_whatever_the_option sample_env fresh_world []
           {[ "fonts" := PBool false ]}).
  reflexivity.
Defined.

(** In the sample installation a window built with [fonts=False] has
    loaded the two fonts that are available, and has the flag off. *)
Example fonts_loaded_with_the_option_off :
  let w' := (ThemedTk sample_env [] {[ "fonts" := PBool false ]} fresh_world).2 in
  attempted (log w')
  = ["fonts/roboto/Roboto-Regular.ttf"; "fonts/roboto/Roboto-Thin.ttf"]
  ∧ attr w' 0 font_support = Some (PBool false).
Proof. vm_compute. split; reflexivity. Qed.

(** C8. When the font module is there and no probe raises, the loader
    returns normally whatever [load_font] does on each file: it probes
    every file of the tree that ends in [.ttf], in order, and attempts to
    load every one of them that is reported available; a failed load, a
    file with another suffix and a file reported unavailable are each
    passed over and the loops go on. *)
Theorem C8_a_failed_load_does_not_stop_the_loops env self w :
  tkextrafont_installed env = true →
  load_extrafont_ok env = true →
  (∀ font, font ∈ ttf_files env → font_info_result env font ≠ ProbeError) →
  ∃ evs,
    _load_fonts env self w = (Ok tt, add_log w evs)
    ∧ probed evs = ttf_files env
    ∧ attempted evs = List.filter (is_available env) (ttf_files env).
Proof.
  intros Hmodule Hextra Hprobe.
  destruct (font_folders_run env self (get_fonts_directory env)
              (listdir env (get_fonts_directory env))) as (evs & Hloop & Hprobed & Htried).
  { intros folder file Hfolder Hfile Hsuffix. apply Hprobe.
    unfold ttf_files. apply list_elem_of_In, in_flat_map.
    exists folder. split; [by apply list_elem_of_In |].
    apply in_map, filter_In. split; [by apply list_elem_of_In | done]. }
  exists ([EvImportTkextrafont] ++ [EvLoadExtrafont self] ++ evs).
  split; [|split].
  - pose proof (import_tkextrafont_run env) as Himport. rewrite Hmodule in Himport.
    pose proof (load_extrafont_run env self) as Hload. rewrite Hextra in Hload.
    unfold _load_fonts.
    apply (log_only_bind_ok _ _ tt); [done |].
    by apply (log_only_bind_ok _ _ tt).
  - done.
  - done.
Qed.

Lemma C8_a_failed_load_does_not_stop_the_loops_witness :
  ∃ evs,
    _load_fonts sample_env 0 fresh_world = (Ok tt, add_log fresh_world evs)
    ∧ probed evs = ttf_files sample_env
    ∧ attempted evs = List.filter (is_available sample_env) (ttf_files sample_env).
Proof.
  apply (C8_a_failed_load_does_not_stop_the_loops sample_env 0 fresh_world).
  - reflexivity.
  - reflexivity.
  - intros font Hfont. unfold sample_env; simpl.
    by destruct (String.eqb font "fonts/roboto/Roboto-Bold.ttf").
Defined.

(** In the sample installation the first font fails to load and the
    second is unavailable; the third is still probed and loaded. *)
Example sample_fonts_all_visited :
  load_font_ok sample_env "fonts/roboto/Roboto-Regular.ttf" = false
  ∧ log (_load_fonts sample_env 0 fresh_world).2
    = [EvImportTkextrafont; EvLoadExtrafont 0;
       EvFontInfo 0 "fonts/roboto/Roboto-Regular.ttf";
       EvLoadFont 0 "fonts/roboto/Roboto-Regular.ttf";
       EvFontInfo 0 "fonts/roboto/Roboto-Bold.ttf";
       EvPrint "Font not available: Roboto-Bold.ttf";
       EvFontInfo 0 "fonts/roboto/Roboto-Thin.ttf";
       EvLoadFont 0 "fonts/roboto/Roboto-Thin.ttf"].
Proof. vm_compute. split; reflexivity. Qed.

(** ** [set_theme] *)

(** C5. On a window of the heap, [set_theme] with [background=True] and a
    theme that the theming capability applies leaves the window's
    [background] option equal to what the style engine resolves for
    [TFrame]'s [background] under that theme, [white] where the theme sets
    none; with any [background] argument that is not [True] the option is
    what it was, whether the theme is applied or not. *)
Theorem C5_background_is_the_frame_background env self theme_name toplevel w o :
  heap w !! self = Some o →
  (theme_loads env theme_name = true →
   let w' := (set_theme env self theme_name toplevel (PBool true) w).2 in
   attr w' self background_option
   = Some (default "white" (style_lookup env (attr w' self theme_in_use)
                                         "TFrame" "background"))
   ∧ attr w' self theme_in_use = Some theme_name)
  ∧ (∀ background, is_True background = false →
       attr (set_theme env self theme_name toplevel background w).2 self background_option
       = background_option o).
Proof.
  intros Hself. split.
  - intros Hloads. simpl.
    rewrite (set_theme_run env _ _ _ _ _ o) by done. unfold attr; simpl.
    rewrite (lookup_updated _ _ o) by done.
    destruct (FONTS !! theme_name), (font_support o) as [fs|];
      try destruct (truthy fs); done.
  - intros background Hoff. destruct (theme_loads env theme_name) eqn:Hloads.
    + rewrite (set_theme_run env _ _ _ _ _ o) by done. unfold attr; simpl.
      rewrite (lookup_updated _ _ o) by done. rewrite Hoff.
      destruct (FONTS !! theme_name), (font_support o) as [fs|];
        try destruct (truthy fs); done.
    + rewrite set_theme_rejected by done. unfold attr; simpl. by rewrite Hself.
Qed.

Lemma C5_background_is_the_frame_background_witness :
  let w := (ThemedTk sample_env [] ∅ fresh_world).2 in
  attr (set_theme sample_env 0 "arc" (PBool false) (PBool true) w).2 0 background_option
  = Some "#f5f6f7"
  ∧ attr (set_theme sample_env 0 "arc" (PBool false) (PBool false) w).2 0 background_option
    = None.
Proof.
  pose (w := (ThemedTk sample_env [] ∅ fresh_world).2).
  pose (o := mkThemedTk (Some (PBool false)) (Some Toplevel_orig) None None None).
  assert (heap w !! 0 = Some o) as Hself by reflexivity.
  destruct (C5_background_is_the_frame_background sample_env 0 "arc" (PBool false) w o Hself)
    as [Hon Hoff].
  split.
  - destruct (Hon eq_refl) as [Hbg Htheme]. simpl in Hbg. rewrite Htheme in Hbg. exact Hbg.
  - exact (Hoff (PBool false) eq_refl).
Defined.

(** ** The [Toplevel.__init__] hook *)

(** A hook installed by [set_theme] after the window was built in a fresh
    process works as documented: a child window gets the frame background
    when it gives no [background], and keeps its own otherwise. *)
Lemma hook_installed_after_construction env self theme_name background w o depth
    cargs ckwargs :
  heap w !! self = Some o →
  __init__toplevel o = Some Toplevel_orig →
  is_Some (font_support o) →
  theme_loads env theme_name = true →
  let w' := (set_theme env self theme_name (PBool true) background w).2 in
  Toplevel (S (S depth)) cargs ckwargs w'
  = (Ok tt,
     add_log w' [EvToplevelOrigInit cargs
                   (setdefault "background" (PStr (frame_background env theme_name))
                               ckwargs)]).
Proof.
  intros Hself Hsaved [fs Hfs] Hloads. simpl.
  unfold Toplevel. rewrite (set_theme_run env _ _ _ _ _ o) by done.
  cbn [snd Toplevel__init__ is_True].
  apply call_delegating_to_orig. unfold attr. cbn [heap].
  rewrite (lookup_updated _ _ o) by done. rewrite Hfs. simpl.
  destruct (FONTS !! theme_name); try destruct (truthy fs);
    by destruct (is_True background).
Qed.

(** C1, at the constructor's own [set_theme] call.  When the constructor
    is given a registered theme with [toplevel=True], it returns, and
    from then on creating a child window raises [RecursionError] at every
    recursion limit: the toolkit's constructor is never reached, so the
    child gets no background at all. *)
Theorem C1_hook_from_the_constructor_never_returns env w args kwargs theme_name depth
    cargs ckwargs :
  Tk_accepts env args (remaining kwargs) = true →
  initial_theme env kwargs = Some theme_name →
  theme_loads env theme_name = true →
  option_toplevel kwargs = PBool true →
  ∃ w', ThemedTk env args kwargs w = (Ok (length (heap w)), w')
        ∧ Toplevel depth cargs ckwargs w' = (Raise RecursionError, w').
Proof.
  intros Haccepts Htheme Hloads Htoplevel.
  destruct (_load_fonts_loader_run env (length (heap w)))
    as (rf & evf & Hfonts & Hcaught & Hkind).
  rewrite (ThemedTk_themed env w args kwargs rf evf theme_name) by done.
  rewrite Htoplevel. cbn [is_True].
  eexists. split; [reflexivity |].
  unfold Toplevel. cbn [Toplevel__init__].
  apply call_delegating_to_itself. by rewrite attr_new.
Qed.

Lemma C1_hook_from_the_constructor_never_returns_witness :
  ∃ w', ThemedTk sample_env [] {[ "theme" := PStr "arc"; "toplevel" := PBool true ]}
          fresh_world = (Ok 0, w')
        ∧ Toplevel 1000 [] ∅ w' = (Raise RecursionError, w').
Proof.
  apply (C1_hook_from_the_constructor_never_returns sample_env fresh_world []
           {[ "theme" := PStr "arc"; "toplevel" := PBool true ]} "arc" 1000 [] ∅);
    reflexivity.
Defined.

(** The same window, hooked by a call after construction instead: the
    child is created with the frame background. *)
Example hook_after_construction_works :
  let w := (ThemedTk sample_env [] ∅ fresh_world).2 in
  let w' := (set_theme sample_env 0 "arc" (PBool true) (PBool false) w).2 in
  Toplevel 1000 [] ∅ w'
  = (Ok tt, add_log w' [EvToplevelOrigInit [] {[ "background" := PStr "#f5f6f7" ]}]).
Proof. vm_compute. reflexivity. Qed.

(** C2. Let a construction return, in a world whose function objects are
    numbered.  If the constructor applied a registered theme with
    [toplevel=True], the attribute [__init__toplevel] it saves is the
    closure that its [set_theme] call has just bound to
    [Toplevel.__init__], a new function object and not what was bound
    before, so that the closure delegates to itself.  Otherwise the
    attribute is what was bound before the construction, and no later
    [set_theme] call changes it. *)
Theorem C2_constructor_saves_its_own_hook env w args kwargs :
  fn_known w (Toplevel__init__ w) →
  (ThemedTk env args kwargs w).1 = Ok (length (heap w)) →
  let self := length (heap w) in
  let w' := (ThemedTk env args kwargs w).2 in
  if (match initial_theme env kwargs with
      | Some _ => is_True (option_toplevel kwargs)
      | None => false
      end)
  then attr w' self __init__toplevel = Some (Toplevel__init__ w')
       ∧ (∃ color, Toplevel__init__ w' = __toplevel__ (next_fid w) self color)
       ∧ Toplevel__init__ w' ≠ Toplevel__init__ w
  else attr w' self __init__toplevel = Some (Toplevel__init__ w)
       ∧ ∀ calls, attr (set_theme_calls env self calls w') self __init__toplevel
                  = Some (Toplevel__init__ w).
Proof.
  intros Hknown Hreturns. simpl.
  assert (∀ w1 : World,
             attr w1 (length (heap w)) __init__toplevel = Some (Toplevel__init__ w) →
             ∀ calls, attr (set_theme_calls env (length (heap w)) calls w1)
                           (length (heap w)) __init__toplevel
                      = Some (Toplevel__init__ w)) as Hlater.
  { intros w1 Hsaved calls. unfold attr in Hsaved.
    destruct (heap w1 !! length (heap w)) as [o|] eqn:Hself; [|done].
    destruct (set_theme_calls_summary env _ calls w1 o Hself) as ((o' & Ho' & Heq) & _).
    unfold attr. rewrite Ho'. simpl in *. congruence. }
  revert Hreturns Hlater. construction env w args kwargs; intros Hreturns Hlater;
    [| done | | done]; cbn [snd fst Toplevel__init__] in *.
  - destruct (is_True (option_toplevel kwargs)).
    + split; [by rewrite attr_new | split; [by eauto |]].
      intros Heq. rewrite <- Heq in Hknown. simpl in Hknown. lia.
    + split; [by rewrite attr_new |]. apply Hlater. by rewrite attr_new.
  - split; [by rewrite attr_new |]. apply Hlater. by rewrite attr_new.
Qed.

Lemma C2_constructor_saves_its_own_hook_witness :
  let w' := (ThemedTk sample_env [] {[ "theme" := PStr "arc"; "toplevel" := PBool true ]}
               fresh_world).2 in
  attr w' 0 __init__toplevel = Some (Toplevel__init__ w')
  ∧ (∃ color, Toplevel__init__ w' = __toplevel__ 0 0 color)
  ∧ Toplevel__init__ w' ≠ Toplevel_orig.
Proof.
  exact (C2_constructor_saves_its_own_hook sample_env fresh_world []
           {[ "theme" := PStr "arc"; "toplevel" := PBool true ]} I eq_refl).
Defined.

(** With the hook left to a later call, the saved constructor is the
    toolkit's. *)
Example saved_constructor_without_initial_hook :
  let w' := (ThemedTk sample_env [] {[ "theme" := PStr "arc" ]} fresh_world).2 in
  attr (set_theme_calls sample_env 0 [("adapta", PBool true, PBool true)] w') 0
       __init__toplevel
  = Some Toplevel_orig.
Proof. vm_compute. reflexivity. Qed.

(** C3, as the code has it.  Over a window's life (its construction, then
    any sequence of [set_theme] calls) [Toplevel.__init__] is rebound once
    by every [set_theme] call that applies its theme with [toplevel=True],
    the constructor's call included, hence any number of times; and it is
    never restored: once it is bound to a closure, or as soon as one
    rebinding has happened, it is not the toolkit's constructor again. *)
Theorem C3_rebound_by_every_hooking_call env w args kwargs calls :
  let w' := lifetime env args kwargs calls w in
  rebinds (log w')
  = rebinds (log w) + constructor_rebinds env args kwargs + rebinding_calls env calls
  ∧ (Toplevel__init__ w ≠ Toplevel_orig
     ∨ 0 < constructor_rebinds env args kwargs + rebinding_calls env calls →
     Toplevel__init__ w' ≠ Toplevel_orig).
Proof.
  simpl. unfold lifetime.
  destruct (ThemedTk_summary env w args kwargs) as ((o & Hself) & Hcount & Hbound).
  destruct (set_theme_calls_summary env _ calls _ o Hself) as (_ & Hcount' & Hbound').
  split.
  - rewrite Hcount', Hcount. lia.
  - intros Hpre. apply Hbound'.
    destruct Hpre as [Hpre|Hpre]; [left; apply Hbound; by left |].
    destruct (constructor_rebinds env args kwargs) eqn:Hctor.
    + right. lia.
    + left. apply Hbound. right. lia.
Qed.

Lemma C3_rebound_by_every_hooking_call_witness :
  let w' := lifetime sample_env [] {[ "theme" := PStr "arc"; "toplevel" := PBool true ]}
              [("adapta", PBool true, PBool false); ("arc", PBool true, PBool false)]
              fresh_world in
  rebinds (log w') = 3 ∧ Toplevel__init__ w' ≠ Toplevel_orig.
Proof.
  destruct (C3_rebound_by_every_hooking_call sample_env fresh_world []
              {[ "theme" := PStr "arc"; "toplevel" := PBool true ]}
              [("adapta", PBool true, PBool false); ("arc", PBool true, PBool false)])
    as [Hcount Hbound].
  split.
  - exact Hcount.
  - apply Hbound. right. vm_compute. lia.
Defined.

(** C3 as the data model words it fails: a window built without a theme
    and themed twice with [toplevel=True] has rebound the hook twice. *)
Lemma C3_rebound_twice :
  ¬ rebound_at_most_once sample_env [] ∅
      [("arc", PBool true, PBool false); ("adapta", PBool true, PBool false)]
      fresh_world.
Proof. unfold rebound_at_most_once. vm_compute. lia. Qed.

(** * Further properties of the class *)

(** ** Construction: results and defaults *)

Lemma remaining_without_options kwargs :
  (∀ k, k ∈ ["theme"; "toplevel"; "background"; "fonts"] → kwargs !! k = None) →
  remaining kwargs = kwargs.
Proof.
  intros Hnone. apply map_eq. intros k.
  destruct (decide (k ∈ ["theme"; "toplevel"; "background"; "fonts"])) as [Hk|Hk].
  - rewrite remaining_lookup_option by done. symmetry. by apply Hnone.
  - by apply remaining_lookup_other.
Qed.

(** X1. Drop-in use.  A construction that gives none of the four options
    hands the caller's positional and keyword arguments to the toolkit
    constructor as they are; when it accepts them the window is returned
    with [font_support] off, no theme in use, no background set, and
    [Toplevel.__init__] bound as before, having made only the two
    base-class calls and the font loader's calls. *)
Theorem X1_drop_in_for_Tk env w args kwargs :
  (∀ k, k ∈ ["theme"; "toplevel"; "background"; "fonts"] → kwargs !! k = None) →
  Tk_accepts env args kwargs = true →
  ∃ evs,
    ThemedTk env args kwargs w
    = (Ok (length (heap w)),
       mkWorld (Toplevel__init__ w)
         (heap w ++ [mkThemedTk (Some (PBool false)) (Some (Toplevel__init__ w))
                                None None None])
         (next_fid w)
         (log w ++ [EvTkInit (length (heap w)) args kwargs;
                    EvThemedWidgetInit (length (heap w))] ++ evs))
    ∧ Forall (λ e, is_font_event e = true) evs.
Proof.
  intros Hnone Haccepts.
  pose proof (remaining_without_options kwargs Hnone) as Hremaining.
  destruct (_load_fonts_loader_run env (length (heap w)))
    as (rf & evf & Hfonts & Hcaught & Hkind).
  rewrite (ThemedTk_no_theme env w args kwargs rf evf).
  - rewrite Hremaining. rewrite font_flag_off.
    + by exists evf.
    + unfold option_fonts. rewrite Hnone; [done | set_solver].
  - by rewrite Hremaining.
  - done.
  - done.
  - unfold initial_theme. rewrite Hnone; [done | set_solver].
Qed.

Lemma X1_drop_in_for_Tk_witness :
  ∃ evs,
    ThemedTk sample_env [PStr "screen"] {[ "className" := PStr "Demo" ]} fresh_world
    = (Ok 0,
       mkWorld Toplevel_orig
         [mkThemedTk (Some (PBool false)) (Some Toplevel_orig) None None None] 0
         ([] ++ [EvTkInit 0 [PStr "screen"] {[ "className" := PStr "Demo" ]};
                 EvThemedWidgetInit 0] ++ evs))
    ∧ Forall (λ e, is_font_event e = true) evs.
Proof.
  apply (X1_drop_in_for_Tk sample_env fresh_world [PStr "screen"]
           {[ "className" := PStr "Demo" ]}).
  - intros k Hk.
    repeat (apply elem_of_cons in Hk as [->|Hk]); [| | | | by apply elem_of_nil in Hk];
      reflexivity.
  - reflexivity.
Defined.


(** X3. A construction never touches the windows that exist: the heap
    grows by exactly the new object, in every outcome. *)
Theorem X3_construction_only_adds_a_window env w args kwargs :
  ∃ o, heap (ThemedTk env args kwargs w).2 = heap w ++ [o].
Proof. construction env w args kwargs; simpl; by eexists. Qed.

(** ** The font loader: probes that raise, files reported unavailable *)

Lemma for_each_result {A} (l : list A) (body : A → M unit) (fails : A → bool) :
  (∀ x, x ∈ l →
        ∃ evs, log_only (body x) (if fails x then Raise TclError else Ok tt) evs) →
  ∃ evs, log_only (for_each l body)
                  (if existsb fails l then Raise TclError else Ok tt) evs.
Proof.
  induction l as [|x l IH]; intros Hbody; simpl.
  - exists []. apply log_only_ret.
  - destruct (Hbody x) as (e1 & Hx); [left |].
    destruct (fails x); simpl.
    + exists e1. by apply log_only_bind_raise.
    + destruct IH as (e2 & Hl).
      { intros y Hy. apply Hbody. by right. }
      exists (e1 ++ e2). by apply (log_only_bind_ok _ _ tt).
Qed.

Lemma existsb_flat_map {A B} (f : B → bool) (g : A → list B) (l : list A) :
  existsb f (flat_map g l) = existsb (λ x, existsb f (g x)) l.
Proof.
  induction l as [|x l IH]; [done |]. simpl. by rewrite existsb_app, IH.
Qed.

Lemma existsb_map {A B} (f : B → bool) (g : A → B) (l : list A) :
  existsb f (map g l) = existsb (λ x, f (g x)) l.
Proof. induction l as [|x l IH]; [done |]. simpl. by rewrite IH. Qed.

Lemma existsb_filter {A} (f p : A → bool) (l : list A) :
  existsb f (List.filter p l) = existsb (λ x, p x && f x) l.
Proof.
  induction l as [|x l IH]; [done |]. simpl.
  destruct (p x); simpl; by rewrite IH.
Qed.

Lemma printed_app a b : printed (a ++ b) = printed a ++ printed b.
Proof. unfold printed. apply omap_app. Qed.

Section FontLoaderMore.
Variable env : Env.
Variable self : nat.

Local Abbreviation font_file font_path :=
  (λ file : string,
      if negb (endswith file ".ttf") then ret tt
      else
        let font := path_join font_path file in
        let* info := font_info env self font in
        if negb info then print ("Font not available: " +:+ file)
        else try_except (load_font env self font) is_TclError (ret tt)).

Local Abbreviation font_folder fonts_path :=
  (λ folder : string,
      let font_path := path_join fonts_path folder in
      for_each (listdir env font_path) (font_file font_path)).

(** One file raises exactly when it is a font file whose probe raises. *)
Lemma font_file_result font_path file :
  ∃ evs, log_only (font_file font_path file)
           (if endswith file ".ttf" && probe_raises env (path_join font_path file)
            then Raise TclError else Ok tt) evs.
Proof.
  cbv beta. unfold probe_raises. destruct (endswith file ".ttf"); simpl.
  - pose proof (font_info_run env self (path_join font_path file)) as Hinfo.
    destruct (font_info_result env (path_join font_path file)).
    + eexists. eapply log_only_bind_ok; [exact Hinfo |]. simpl.
      apply guarded_load_font_run.
    + eexists. eapply log_only_bind_ok; [exact Hinfo |]. simpl. apply log_only_emit.
    + eexists. by apply log_only_bind_raise.
  - exists []. apply log_only_ret.
Qed.

Lemma _load_fonts_result :
  tkextrafont_installed env = true →
  load_extrafont_ok env = true →
  ∃ evs, log_only (_load_fonts env self)
           (if existsb (probe_raises env) (ttf_files env)
            then Raise TclError else Ok tt) evs.
Proof.
  intros Hmodule Hextra.
  pose proof (import_tkextrafont_run env) as Himport. rewrite Hmodule in Himport.
  pose proof (load_extrafont_run env self) as Hload. rewrite Hextra in Hload.
  destruct (for_each_result (listdir env (get_fonts_directory env))
              (font_folder (get_fonts_directory env))
              (λ folder,
                 existsb (λ file,
                     endswith file ".ttf"
                     && probe_raises env
                          (path_join (path_join (get_fonts_directory env) folder) file))
                   (listdir env (path_join (get_fonts_directory env) folder))))
    as (evs & Hloop).
  { intros folder _. apply for_each_result. intros file _. apply font_file_result. }
  assert (existsb (probe_raises env) (ttf_files env)
          = existsb (λ folder,
                 existsb (λ file,
                     endswith file ".ttf"
                     && probe_raises env
                          (path_join (path_join (get_fonts_directory env) folder) file))
                   (listdir env (path_join (get_fonts_directory env) folder)))
              (listdir env (get_fonts_directory env))) as ->.
  { unfold ttf_files. rewrite existsb_flat_map. clear Hloop.
    generalize (listdir env (get_fonts_directory env)). intros folders.
    induction folders as [|folder folders IH]; [done |].
    simpl. rewrite IH, existsb_map, existsb_filter. done. }
  eexists. unfold _load_fonts.
  apply (log_only_bind_ok _ _ tt); [exact Himport |].
  apply (log_only_bind_ok _ _ tt); [exact Hload |]. exact Hloop.
Qed.

(** The messages of one folder, when no probe raises. *)
Lemma font_files_printed font_path (files : list string) :
  (∀ file, file ∈ files → endswith file ".ttf" = true →
           font_info_result env (path_join font_path file) ≠ ProbeError) →
  ∃ evs, log_only (for_each files (font_file font_path)) (Ok tt) evs
         ∧ printed evs
           = map (λ file, "Font not available: " +:+ file)
               (List.filter (λ file,
                    endswith file ".ttf"
                    && match font_info_result env (path_join font_path file) with
                       | Unavailable => true
                       | _ => false
                       end) files).
Proof.
  induction files as [|file files IH]; intros Hprobe.
  - exists []. split; [apply log_only_ret | done].
  - destruct IH as (e2 & Hrest & Hp2).
    { intros f Hf. apply Hprobe. by right. }
    assert (∃ e1, log_only (font_file font_path file) (Ok tt) e1
              ∧ printed e1
                = (if endswith file ".ttf"
                      && match font_info_result env (path_join font_path file) with
                         | Unavailable => true
                         | _ => false
                         end
                   then ["Font not available: " +:+ file] else [])) as (e1 & Hfile & Hp1).
    { cbv beta. destruct (endswith file ".ttf") eqn:Hsuffix; simpl.
      - pose proof (font_info_run env self (path_join font_path file)) as Hinfo.
        assert (font_info_result env (path_join font_path file) ≠ ProbeError) as Hok
          by (apply Hprobe; [left | done]).
        destruct (font_info_result env (path_join font_path file)); [| |done].
        + eexists. split;
            [eapply log_only_bind_ok; [exact Hinfo | simpl; apply guarded_load_font_run]
            | done].
        + eexists. split;
            [eapply log_only_bind_ok; [exact Hinfo | simpl; apply log_only_emit] | done].
      - exists []. split; [apply log_only_ret | done]. }
    exists (e1 ++ e2). split.
    + simpl for_each. by apply (log_only_bind_ok _ _ tt).
    + rewrite printed_app, Hp1, Hp2. simpl.
      by destruct (endswith file ".ttf"
                   && match font_info_result env (path_join font_path file) with
                      | Unavailable => true
                      | _ => false
                      end).
Qed.

Lemma font_folders_printed fonts_path (folders : list string) :
  (∀ folder file, folder ∈ folders →
      file ∈ listdir env (path_join fonts_path folder) →
      endswith file ".ttf" = true →
      font_info_result env (path_join (path_join fonts_path folder) file) ≠ ProbeError) →
  ∃ evs, log_only (for_each folders (font_folder fonts_path)) (Ok tt) evs
         ∧ printed evs
           = map (λ file, "Font not available: " +:+ file)
               (flat_map (λ folder,
                  List.filter (λ file,
                      endswith file ".ttf"
                      && match font_info_result env
                                 (path_join (path_join fonts_path folder) file) with
                         | Unavailable => true
                         | _ => false
                         end)
                    (listdir env (path_join fonts_path folder))) folders).
Proof.
  induction folders as [|folder folders IH]; intros Hprobe.
  - exists []. split; [apply log_only_ret | done].
  - destruct IH as (e2 & Hrest & Hp2).
    { intros d f Hd. apply Hprobe. by right. }
    destruct (font_files_printed (path_join fonts_path folder)
                (listdir env (path_join fonts_path folder))) as (e1 & Hdir & Hp1).
    { intros f Hf. apply Hprobe; [left | done]. }
    exists (e1 ++ e2). split.
    + simpl for_each. by apply (log_only_bind_ok _ _ tt).
    + rewrite printed_app, Hp1, Hp2. simpl. by rewrite map_app.
Qed.

End FontLoaderMore.

(** X4. With the font module loaded, the loader returns exactly when no
    probe of a font file of the tree raises; when one does, the loader
    raises [TclError]: [font_info] is called outside the [try] that guards
    [load_font], so a raising probe ends both loops. *)
Theorem X4_a_raising_probe_ends_the_loader env self :
  tkextrafont_installed env = true →
  load_extrafont_ok env = true →
  ∀ w, (_load_fonts env self w).1
       = (if existsb (probe_raises env) (ttf_files env)
          then Raise TclError else Ok tt).
Proof.
  intros Hmodule Hextra w.
  destruct (_load_fonts_result env self Hmodule Hextra) as (evs & Hrun).
  by rewrite Hrun.
Qed.

Lemma X4_a_raising_probe_ends_the_loader_witness :
  (_load_fonts sample_env_bad_probe 0 fresh_world).1 = Raise TclError
  ∧ (_load_fonts sample_env 0 fresh_world).1 = Ok tt.
Proof.
  split.
  - exact (X4_a_raising_probe_ends_the_loader sample_env_bad_probe 0 eq_refl eq_refl
             fresh_world).
  - exact (X4_a_raising_probe_ends_the_loader sample_env 0 eq_refl eq_refl fresh_world).
Defined.

(** With the probe of the second font raising, the third is never
    probed. *)
Example sample_bad_probe_stops_early :
  probed (log (_load_fonts sample_env_bad_probe 0 fresh_world).2)
  = ["fonts/roboto/Roboto-Regular.ttf"; "fonts/roboto/Roboto-Bold.ttf"].
Proof. vm_compute. reflexivity. Qed.

(** X5. When the font module is loaded and no probe raises, the loader
    prints one line per font file reported unavailable, in visiting order,
    naming the file (not its path), and nothing else. *)
Theorem X5_unavailable_fonts_are_reported env self w :
  tkextrafont_installed env = true →
  load_extrafont_ok env = true →
  (∀ font, font ∈ ttf_files env → font_info_result env font ≠ ProbeError) →
  ∃ evs,
    _load_fonts env self w = (Ok tt, add_log w evs)
    ∧ printed evs
      = map (λ file, "Font not available: " +:+ file) (unavailable_names env).
Proof.
  intros Hmodule Hextra Hprobe.
  destruct (font_folders_printed env self (get_fonts_directory env)
              (listdir env (get_fonts_directory env))) as (evs & Hloop & Hprinted).
  { intros folder file Hfolder Hfile Hsuffix. apply Hprobe.
    unfold ttf_files. apply list_elem_of_In, in_flat_map.
    exists folder. split; [by apply list_elem_of_In |].
    apply in_map, filter_In. split; [by apply list_elem_of_In | done]. }
  exists ([EvImportTkextrafont] ++ [EvLoadExtrafont self] ++ evs). split.
  - pose proof (import_tkextrafont_run env) as Himport. rewrite Hmodule in Himport.
    pose proof (load_extrafont_run env self) as Hload. rewrite Hextra in Hload.
    unfold _load_fonts.
    apply (log_only_bind_ok _ _ tt); [done |].
    by apply (log_only_bind_ok _ _ tt).
  - done.
Qed.

Lemma X5_unavailable_fonts_are_reported_witness :
  ∃ evs,
    _load_fonts sample_env 0 fresh_world = (Ok tt, add_log fresh_world evs)
    ∧ printed evs = map (λ file, "Font not available: " +:+ file)
                        (unavailable_names sample_env).
Proof.
  apply (X5_unavailable_fonts_are_reported sample_env 0 fresh_world).
  - reflexivity.
  - reflexivity.
  - intros font Hfont. unfold sample_env; simpl.
    by destruct (String.eqb font "fonts/roboto/Roboto-Bold.ttf").
Defined.

(** ** Font support and the default font *)

Lemma font_flag_loader env self rf evf kwargs :
  log_only (_load_fonts env self) rf evf →
  font_flag rf kwargs
  = (if loader_returns env self then option_fonts kwargs else PBool false).
Proof.
  intros Hfonts. unfold loader_returns. rewrite Hfonts. by destruct rf.
Qed.

Lemma FONTS_lookup theme_name :
  FONTS !! theme_name
  = (if bool_decide (theme_name = "adapta") then Some "roboto" else None).
Proof.
  unfold FONTS. case_bool_decide as Hname.
  - subst. apply lookup_singleton_eq.
  - by apply lookup_singleton_ne.
Qed.

(** X6. After a construction the toolkit constructor accepts,
    [font_support] holds the value of the [fonts] option itself (whatever
    object it is, [False] when left out) if the loader returned, and
    [False] if the loader raised. *)
Theorem X6_font_support_is_the_option_value env w args kwargs :
  Tk_accepts env args (remaining kwargs) = true →
  attr (ThemedTk env args kwargs w).2 (length (heap w)) font_support
  = Some (if loader_returns env (length (heap w))
          then option_fonts kwargs else PBool false).
Proof.
  intros Haccepts.
  destruct (constructed_font_support env w args kwargs Haccepts)
    as (rf & evf & Hfonts & ->).
  by rewrite (font_flag_loader env (length (heap w)) rf evf).
Qed.

Lemma X6_font_support_is_the_option_value_witness :
  attr (ThemedTk sample_env [] {[ "fonts" := PStr "yes" ]} fresh_world).2 0 font_support
  = Some (PStr "yes")
  ∧ attr (ThemedTk sample_env_bad_probe [] {[ "fonts" := PBool true ]} fresh_world).2 0
         font_support
    = Some (PBool false).
Proof.
  split.
  - exact (X6_font_support_is_the_option_value sample_env fresh_world []
             {[ "fonts" := PStr "yes" ]} eq_refl).
  - exact (X6_font_support_is_the_option_value sample_env_bad_probe fresh_world []
             {[ "fonts" := PBool true ]} eq_refl).
Defined.

(** X7. [set_theme] on a constructed window, with a theme that is applied,
    returns, and sets the default font to [roboto] exactly when the theme
    is [adapta] and [font_support] is truthy; otherwise the default font is
    left as it was. *)
Theorem X7_default_font_only_for_adapta env self theme_name toplevel background w o fs :
  heap w !! self = Some o →
  font_support o = Some fs →
  theme_loads env theme_name = true →
  (set_theme env self theme_name toplevel background w).1 = Ok tt
  ∧ attr (set_theme env self theme_name toplevel background w).2 self default_font
    = (if bool_decide (theme_name = "adapta") && truthy fs
       then Some "roboto" else default_font o).
Proof.
  intros Hself Hfs Hloads.
  rewrite (set_theme_run env _ _ _ _ _ o) by done. unfold attr. simpl.
  rewrite (lookup_updated _ _ o) by done. rewrite Hfs, FONTS_lookup.
  destruct (bool_decide (theme_name = "adapta")), (truthy fs), (is_True background);
    done.
Qed.

Lemma X7_default_font_only_for_adapta_witness :
  let w := (ThemedTk sample_env [] {[ "fonts" := PInt 1 ]} fresh_world).2 in
  attr (set_theme sample_env 0 "adapta" (PBool false) (PBool false) w).2 0 default_font
  = Some "roboto"
  ∧ attr (set_theme sample_env 0 "arc" (PBool false) (PBool false) w).2 0 default_font
    = None.
Proof.
  pose (w := (ThemedTk sample_env [] {[ "fonts" := PInt 1 ]} fresh_world).2).
  pose (o := mkThemedTk (Some (PInt 1)) (Some Toplevel_orig) None None None).
  split.
  - exact (proj2 (X7_default_font_only_for_adapta sample_env 0 "adapta" (PBool false)
                    (PBool false) w o (PInt 1) eq_refl eq_refl eq_refl)).
  - exact (proj2 (X7_default_font_only_for_adapta sample_env 0 "arc" (PBool false)
                    (PBool false) w o (PInt 1) eq_refl eq_refl eq_refl)).
Defined.

(** ** [set_theme]: what it leaves alone *)

Lemma is_True_other v : v ≠ PBool true → is_True v = false.
Proof. intros Hv. by destruct v as [|[]| |]. Qed.

(** X8. The [toplevel] argument is compared with [True] by identity: with
    any other value, truthy ones such as [1] included, [set_theme] does not
    rebind [Toplevel.__init__] and makes no closure. *)
Theorem X8_only_True_installs_the_hook env self theme_name toplevel background w o :
  heap w !! self = Some o →
  toplevel ≠ PBool true →
  let w' := (set_theme env self theme_name toplevel background w).2 in
  Toplevel__init__ w' = Toplevel__init__ w
  ∧ next_fid w' = next_fid w
  ∧ rebinds (log w') = rebinds (log w).
Proof.
  intros Hself Hother. simpl. apply is_True_other in Hother.
  destruct (theme_loads env theme_name) eqn:Hloads.
  - rewrite (set_theme_run env _ _ _ _ _ o) by done. simpl. rewrite Hother.
    split; [done | split; [done |]].
    repeat (rewrite rebinds_app || rewrite rebinds_cons).
    destruct (FONTS !! theme_name), (font_support o) as [fs|];
      try destruct (truthy fs); destruct (is_True background);
      unfold rebinds; simpl; lia.
  - rewrite set_theme_rejected by done. simpl. split; [done | split; [done |]].
    rewrite rebinds_app. unfold rebinds; simpl; lia.
Qed.

Lemma X8_only_True_installs_the_hook_witness :
  let w := (ThemedTk sample_env [] ∅ fresh_world).2 in
  truthy (PInt 1) = true
  ∧ Toplevel__init__ (set_theme sample_env 0 "arc" (PInt 1) (PBool false) w).2
    = Toplevel_orig.
Proof.
  pose (w := (ThemedTk sample_env [] ∅ fresh_world).2).
  pose (o := mkThemedTk (Some (PBool false)) (Some Toplevel_orig) None None None).
  split; [reflexivity |].
  assert (PInt 1 ≠ PBool true) as Hother by discriminate.
  exact (proj1 (X8_only_True_installs_the_hook sample_env 0 "arc" (PInt 1) (PBool false)
                  w o eq_refl Hother)).
Defined.

(** X9. A [set_theme] call whose theme cannot be applied raises [TclError]
    before anything else is done: the windows, the binding of
    [Toplevel.__init__] and the closure counter are as they were, and the
    only call made is the attempt to apply the theme. *)
Theorem X9_failed_set_theme_changes_nothing env self theme_name toplevel background w :
  theme_loads env theme_name = false →
  let r := set_theme env self theme_name toplevel background w in
  r.1 = Raise TclError
  ∧ heap r.2 = heap w
  ∧ Toplevel__init__ r.2 = Toplevel__init__ w
  ∧ next_fid r.2 = next_fid w
  ∧ log r.2 = log w ++ [EvWidgetSetTheme self theme_name].
Proof. intros Hno. simpl. by rewrite set_theme_rejected. Qed.

Lemma X9_failed_set_theme_changes_nothing_witness :
  let w := (ThemedTk sample_env_broken_theme [] ∅ fresh_world).2 in
  (set_theme sample_env_broken_theme 0 "adapta" (PBool true) (PBool true) w).1
  = Raise TclError
  ∧ heap (set_theme sample_env_broken_theme 0 "adapta" (PBool true) (PBool true) w).2
    = heap w.
Proof.
  pose (w := (ThemedTk sample_env_broken_theme [] ∅ fresh_world).2).
  destruct (X9_failed_set_theme_changes_nothing sample_env_broken_theme 0 "adapta"
              (PBool true) (PBool true) w eq_refl) as (Hr & Hh & _).
  split; [exact Hr | exact Hh].
Defined.

(** X10. [set_theme] on one window leaves every other window of the heap
    as it was, and the heap as long as it was. *)
Theorem X10_set_theme_touches_one_window env self theme_name toplevel background w :
  let w' := (set_theme env self theme_name toplevel background w).2 in
  length (heap w') = length (heap w)
  ∧ ∀ other, other ≠ self → heap w' !! other = heap w !! other.
Proof.
  simpl. destruct (theme_loads env theme_name) eqn:Hloads.
  - destruct (heap w !! self) as [o|] eqn:Hself.
    + rewrite (set_theme_run env _ _ _ _ _ o) by done. simpl.
      split; [by rewrite length_insert |].
      intros other Hother. by rewrite list_lookup_insert_ne.
    + unfold set_theme, ThemedWidget_set_theme, bind, emit, update_obj. simpl.
      rewrite Hloads. simpl. by rewrite Hself.
  - by rewrite set_theme_rejected.
Qed.

Lemma X10_set_theme_touches_one_window_witness :
  let w1 := (ThemedTk sample_env [] ∅ fresh_world).2 in
  let w2 := (ThemedTk sample_env [] ∅ w1).2 in
  heap (set_theme sample_env 1 "arc" (PBool true) (PBool true) w2).2 !! 0 = heap w2 !! 0.
Proof.
  pose (w1 := (ThemedTk sample_env [] ∅ fresh_world).2).
  pose (w2 := (ThemedTk sample_env [] ∅ w1).2).
  assert (0 ≠ 1) as Hother by lia.
  exact (proj2 (X10_set_theme_touches_one_window sample_env 1 "arc" (PBool true)
                  (PBool true) w2) 0 Hother).
Defined.

(** ** The hook: composition *)

Lemma setdefault_lookup_other k k' v (d : gmap string pyval) :
  k' ≠ k → setdefault k v d !! k' = d !! k'.
Proof.
  intros Hne. unfold setdefault. destruct (d !! k); [done |].
  by rewrite lookup_insert_ne.
Qed.

Lemma setdefault_lookup_absent k v (d : gmap string pyval) :
  d !! k = None → setdefault k v d !! k = Some v.
Proof. intros H. rewrite setdefault_absent by done. apply lookup_insert_eq. Qed.

Lemma setdefault_twice k v v' (d : gmap string pyval) :
  setdefault k v' (setdefault k v d) = setdefault k v d.
Proof.
  destruct (d !! k) as [x|] eqn:Hk.
  - rewrite (setdefault_present k v x d Hk). by apply setdefault_present with x.
  - apply setdefault_present with v. by apply setdefault_lookup_absent.
Qed.

Lemma set_theme_hooks env self theme_name background w o depth cargs ckwargs :
  heap w !! self = Some o →
  __init__toplevel o = Some Toplevel_orig →
  theme_loads env theme_name = true →
  let w' := (set_theme env self theme_name (PBool true) background w).2 in
  Toplevel (S (S depth)) cargs ckwargs w'
  = (Ok tt,
     add_log w' [EvToplevelOrigInit cargs
                   (setdefault "background" (PStr (frame_background env theme_name))
                               ckwargs)]).
Proof.
  intros Hself Hsaved Hloads. simpl.
  unfold Toplevel. rewrite (set_theme_run env _ _ _ _ _ o) by done.
  cbn [snd Toplevel__init__ is_True].
  apply call_delegating_to_orig. unfold attr. cbn [heap].
  rewrite (lookup_updated _ _ o) by done. simpl.
  destruct (FONTS !! theme_name), (font_support o) as [fs|];
    try destruct (truthy fs); by destruct (is_True background).
Qed.

(** X11. On a window whose saved constructor is the toolkit's, after any
    sequence of [set_theme] calls, one more call with [toplevel=True] that
    applies its theme decides what child windows get: the toolkit
    constructor is called with the child's positional arguments, with the
    frame background of that last theme as [background] when the child
    gives none, with the child's keyword arguments unchanged when it gives
    one, and with every other keyword as given. *)
Theorem X11_the_last_hooking_call_decides env self calls theme_name background w o
    depth cargs ckwargs :
  heap w !! self = Some o →
  __init__toplevel o = Some Toplevel_orig →
  theme_loads env theme_name = true →
  let w' := (set_theme env self theme_name (PBool true) background
               (set_theme_calls env self calls w)).2 in
  let passed :=
    setdefault "background" (PStr (frame_background env theme_name)) ckwargs in
  Toplevel (S (S depth)) cargs ckwargs w'
  = (Ok tt, add_log w' [EvToplevelOrigInit cargs passed])
  ∧ (ckwargs !! "background" = None →
     passed !! "background" = Some (PStr (frame_background env theme_name)))
  ∧ (∀ v, ckwargs !! "background" = Some v → passed = ckwargs)
  ∧ (∀ k, k ≠ "background" → passed !! k = ckwargs !! k).
Proof.
  intros Hself Hsaved Hloads. simpl.
  destruct (set_theme_calls_summary env self calls w o Hself)
    as ((o1 & Hself1 & Hsaved1) & _).
  split; [|split; [|split]].
  - apply (set_theme_hooks env self theme_name background _ o1); [done | congruence | done].
  - apply setdefault_lookup_absent.
  - intros v Hv. by apply setdefault_present with v.
  - intros k Hk. by apply setdefault_lookup_other.
Qed.

Lemma X11_the_last_hooking_call_decides_witness :
  let w := (ThemedTk sample_env [] ∅ fresh_world).2 in
  let w' := (set_theme sample_env 0 "adapta" (PBool true) (PBool false)
               (set_theme_calls sample_env 0 [("arc", PBool true, PBool true)] w)).2 in
  Toplevel 2 [PStr "child"] {[ "width" := PInt 300 ]} w'
  = (Ok tt,
     add_log w' [EvToplevelOrigInit [PStr "child"]
                   (setdefault "background" (PStr (frame_background sample_env "adapta"))
                               {[ "width" := PInt 300 ]})]).
Proof.
  pose (w := (ThemedTk sample_env [] ∅ fresh_world).2).
  pose (o := mkThemedTk (Some (PBool false)) (Some Toplevel_orig) None None None).
  exact (proj1 (X11_the_last_hooking_call_decides sample_env 0
                  [("arc", PBool true, PBool true)] "adapta" (PBool false) w o 0
                  [PStr "child"] {[ "width" := PInt 300 ]} eq_refl eq_refl eq_refl)).
Defined.

Lemma set_theme_calls_owner env self calls w o :
  heap w !! self = Some o →
  is_hook_of self (Toplevel__init__ w) = true →
  is_hook_of self (Toplevel__init__ (set_theme_calls env self calls w)) = true.
Proof.
  revert w o. induction calls as [|[[theme_name toplevel] background] calls IH];
    intros w o Hself Howner; [done |].
  destruct (set_theme_step env self theme_name toplevel background w o Hself)
    as ((o1 & Ho1 & _) & _ & Hbound).
  simpl set_theme_calls. apply (IH _ o1 Ho1). rewrite Hbound.
  destruct (theme_loads env theme_name && is_True toplevel); [|done].
  simpl. apply Nat.eqb_refl.
Qed.

Lemma call_through_self_delegating depth fid self color fid0 color0 args kwargs w :
  attr w self __init__toplevel = Some (__toplevel__ fid0 self color0) →
  call depth (__toplevel__ fid self color) args kwargs w = (Raise RecursionError, w).
Proof.
  intros Hsaved. destruct depth as [|depth]; [done |].
  simpl. unfold bind, getattr, bind, get_obj.
  pose proof Hsaved as Hsaved'. unfold attr in Hsaved'.
  destruct (heap w !! self) as [o|]; [|done].
  simpl in Hsaved'. rewrite Hsaved'. unfold ret.
  by apply call_delegating_to_itself.
Qed.

(** X12. A hook installed by the constructor is not repaired by later
    calls: after a construction that applied a registered theme with
    [toplevel=True], and after any sequence of [set_theme] calls on the
    window, creating a child window still raises [RecursionError] at every
    recursion limit and never reaches the toolkit constructor. *)
Theorem X12_later_calls_do_not_repair_the_hook env w args kwargs theme_name calls depth
    cargs ckwargs :
  Tk_accepts env args (remaining kwargs) = true →
  initial_theme env kwargs = Some theme_name →
  theme_loads env theme_name = true →
  option_toplevel kwargs = PBool true →
  let w' := lifetime env args kwargs calls w in
  Toplevel depth cargs ckwargs w' = (Raise RecursionError, w').
Proof.
  intros Haccepts Htheme Hloads Htoplevel. simpl. unfold lifetime.
  destruct (_load_fonts_loader_run env (length (heap w)))
    as (rf & evf & Hfonts & Hcaught & Hkind).
  rewrite (ThemedTk_themed env w args kwargs rf evf theme_name) by done.
  rewrite Htoplevel. cbn [is_True snd].
  set (hook := __toplevel__ (next_fid w) (length (heap w))
                 (frame_background env theme_name)).
  set (w1 := mkWorld hook _ _ _).
  assert (∃ o, heap w1 !! length (heap w) = Some o
               ∧ __init__toplevel o = Some hook) as (o & Hself & Hsaved).
  { eexists. split; [apply lookup_new | done]. }
  destruct (set_theme_calls_summary env _ calls w1 o Hself) as ((o' & Hself' & Hsaved') & _).
  pose proof (set_theme_calls_owner env _ calls w1 o Hself (Nat.eqb_refl _)) as Howner.
  unfold Toplevel.
  destruct (Toplevel__init__ (set_theme_calls env (length (heap w)) calls w1))
    as [|fid owner color]; [done |].
  simpl in Howner. apply Nat.eqb_eq in Howner. subst owner.
  apply (call_through_self_delegating _ _ _ _ (next_fid w)
           (frame_background env theme_name)).
  unfold attr. rewrite Hself'. simpl. rewrite Hsaved', Hsaved. reflexivity.
Qed.

Lemma X12_later_calls_do_not_repair_the_hook_witness :
  let w' := lifetime sample_env [] {[ "theme" := PStr "arc"; "toplevel" := PBool true ]}
              [("adapta", PBool true, PBool false)] fresh_world in
  Toplevel 1000 [] ∅ w' = (Raise RecursionError, w').
Proof.
  exact (X12_later_calls_do_not_repair_the_hook sample_env fresh_world []
           {[ "theme" := PStr "arc"; "toplevel" := PBool true ]} "arc"
           [("adapta", PBool true, PBool false)] 1000 [] ∅
           eq_refl eq_refl eq_refl eq_refl).
Defined.

(** X13. Hooks of several windows accumulate.  When a window is built
    (without an initial theme) while the working hook of an earlier window
    is bound, and is then themed with [toplevel=True], a child window is
    created through both closures and reaches the toolkit constructor with
    the frame background of the later window's theme as its default
    [background]. *)
Theorem X13_hooks_of_two_windows_chain env w first o fid color args kwargs theme_name
    background depth cargs ckwargs :
  heap w !! first = Some o →
  __init__toplevel o = Some Toplevel_orig →
  Toplevel__init__ w = __toplevel__ fid first color →
  Tk_accepts env args (remaining kwargs) = true →
  initial_theme env kwargs = None →
  theme_loads env theme_name = true →
  let second := length (heap w) in
  let w1 := (ThemedTk env args kwargs w).2 in
  let w2 := (set_theme env second theme_name (PBool true) background w1).2 in
  attr w2 second __init__toplevel = Some (__toplevel__ fid first color)
  ∧ Toplevel (S (S (S depth))) cargs ckwargs w2
    = (Ok tt,
       add_log w2 [EvToplevelOrigInit cargs
                     (setdefault "background" (PStr (frame_background env theme_name))
                                 ckwargs)]).
Proof.
  intros Hfirst Hsaved Hbound Haccepts Hnone Hloads. simpl.
  pose proof (lookup_lt_Some _ _ _ Hfirst) as Hlt.
  destruct (_load_fonts_loader_run env (length (heap w)))
    as (rf & evf & Hfonts & Hcaught & Hkind).
  rewrite (ThemedTk_no_theme env w args kwargs rf evf) by done.
  cbn [snd]. rewrite Hbound.
  set (o2 := mkThemedTk (Some (font_flag rf kwargs)) (Some (__toplevel__ fid first color))
                        None None None).
  rewrite (set_theme_run env _ _ _ _ _ o2) by (done || apply lookup_new).
  cbn [snd is_True heap next_fid Toplevel__init__].
  rewrite insert_new.
  set (o3 := match _ with Some font => _ | None => _ end).
  assert (__init__toplevel o3 = Some (__toplevel__ fid first color)) as Hsaved3.
  { unfold o3. destruct (FONTS !! theme_name); simpl;
      try destruct (truthy (font_flag rf kwargs)); by destruct (is_True background). }
  split.
  - by rewrite attr_new.
  - unfold Toplevel. cbn [Toplevel__init__].
    simpl call. unfold bind at 1. unfold getattr, bind, get_obj. cbn [heap].
    rewrite lookup_new. rewrite Hsaved3. unfold ret.
    cbn [heap]. rewrite lookup_app_l by done. rewrite Hfirst, Hsaved.
    by rewrite setdefault_twice.
Qed.

Lemma X13_hooks_of_two_windows_chain_witness :
  let w := (set_theme sample_env 0 "arc" (PBool true) (PBool false)
              (ThemedTk sample_env [] ∅ fresh_world).2).2 in
  let w1 := (ThemedTk sample_env [] ∅ w).2 in
  let w2 := (set_theme sample_env 1 "adapta" (PBool true) (PBool false) w1).2 in
  attr w2 1 __init__toplevel = Some (__toplevel__ 0 0 "#f5f6f7")
  ∧ Toplevel 3 [] ∅ w2
    = (Ok tt,
       add_log w2 [EvToplevelOrigInit []
                     (setdefault "background" (PStr (frame_background sample_env "adapta"))
                                 ∅)]).
Proof.
  pose (w := (set_theme sample_env 0 "arc" (PBool true) (PBool false)
                (ThemedTk sample_env [] ∅ fresh_world).2).2).
  pose (o := mkThemedTk (Some (PBool false)) (Some Toplevel_orig) None (Some "arc") None).
  assert (heap w !! 0 = Some o) as Hfirst by (vm_compute; reflexivity).
  assert (Toplevel__init__ w = __toplevel__ 0 0 "#f5f6f7") as Hbound
    by (vm_compute; reflexivity).
  pose proof (X13_hooks_of_two_windows_chain sample_env w 0 o 0 "#f5f6f7" [] ∅ "adapta"
                (PBool false) 0 [] ∅ Hfirst eq_refl Hbound eq_refl eq_refl eq_refl) as H.
  vm_compute in H. vm_compute. exact H.
Defined.

(** ** Construction with a theme *)

(** X14. A construction that applies a registered theme hands its
    [toplevel] and [background] options to [set_theme]: the theme is in
    use; the window background is the theme's frame background when the
    [background] option is [True] and is not set otherwise (also when the
    option is left out); [Toplevel.__init__] is rebound to a new closure
    of this window when the [toplevel] option is [True] and is left bound
    as it was otherwise. *)
Theorem X14_constructor_options_reach_set_theme env w args kwargs theme_name :
  Tk_accepts env args (remaining kwargs) = true →
  initial_theme env kwargs = Some theme_name →
  theme_loads env theme_name = true →
  let self := length (heap w) in
  let w' := (ThemedTk env args kwargs w).2 in
  let color := frame_background env theme_name in
  attr w' self theme_in_use = Some theme_name
  ∧ attr w' self background_option
    = (if is_True (option_background kwargs) then Some color else None)
  ∧ Toplevel__init__ w'
    = (if is_True (option_toplevel kwargs)
       then __toplevel__ (next_fid w) self color else Toplevel__init__ w).
Proof.
  intros Haccepts Htheme Hloads. simpl.
  destruct (_load_fonts_loader_run env (length (heap w)))
    as (rf & evf & Hfonts & Hcaught & Hkind).
  rewrite (ThemedTk_themed env w args kwargs rf evf theme_name) by done.
  cbn [snd Toplevel__init__]. by rewrite !attr_new.
Qed.

Lemma X14_constructor_options_reach_set_theme_witness :
  let w' := (ThemedTk sample_env [] {[ "theme" := PStr "arc"; "background" := PBool true ]}
               fresh_world).2 in
  attr w' 0 theme_in_use = Some "arc"
  ∧ attr w' 0 background_option = Some "#f5f6f7"
  ∧ Toplevel__init__ w' = Toplevel_orig.
Proof.
  exact (X14_constructor_options_reach_set_theme sample_env fresh_world []
           {[ "theme" := PStr "arc"; "background" := PBool true ]} "arc"
           eq_refl eq_refl eq_refl).
Defined.

(** X15. A construction that applies a registered theme sets the default
    font to [roboto] exactly when the theme is [adapta], the [fonts]
    option is truthy and the font loader returned; the default font is not
    set otherwise. *)
Theorem X15_default_font_at_construction env w args kwargs theme_name :
  Tk_accepts env args (remaining kwargs) = true →
  initial_theme env kwargs = Some theme_name →
  theme_loads env theme_name = true →
  attr (ThemedTk env args kwargs w).2 (length (heap w)) default_font
  = (if bool_decide (theme_name = "adapta") && truthy (option_fonts kwargs)
        && loader_returns env (length (heap w))
     then Some "roboto" else None).
Proof.
  intros Haccepts Htheme Hloads.
  destruct (_load_fonts_loader_run env (length (heap w)))
    as (rf & evf & Hfonts & Hcaught & Hkind).
  rewrite (ThemedTk_themed env w args kwargs rf evf theme_name) by done.
  cbn [snd]. rewrite attr_new. cbn [default_font].
  rewrite FONTS_lookup, (font_flag_loader env (length (heap w)) rf evf) by done.
  destruct (bool_decide (theme_name = "adapta")), (loader_returns env (length (heap w)));
    simpl; try done.
  - by destruct (truthy (option_fonts kwargs)).
  - by rewrite andb_false_r.
Qed.

Lemma X15_default_font_at_construction_witness :
  attr (ThemedTk sample_env [] {[ "theme" := PStr "adapta"; "fonts" := PBool true ]}
          fresh_world).2 0 default_font = Some "roboto"
  ∧ attr (ThemedTk sample_env_no_module []
            {[ "theme" := PStr "adapta"; "fonts" := PBool true ]} fresh_world).2 0
         default_font = None.
Proof.
  split.
  - exact (X15_default_font_at_construction sample_env fresh_world []
             {[ "theme" := PStr "adapta"; "fonts" := PBool true ]} "adapta"
             eq_refl eq_refl eq_refl).
  - exact (X15_default_font_at_construction sample_env_no_module fresh_world []
             {[ "theme" := PStr "adapta"; "fonts" := PBool true ]} "adapta"
             eq_refl eq_refl eq_refl).
Defined.

(** ** What the loader and the hook never do *)


(** X17. Creating a child window never changes a window, the binding of
    [Toplevel.__init__] or the closure counter, whatever is bound and
    whatever the recursion limit; it reaches the toolkit constructor at
    most once, and then with the child's positional arguments as given. *)
Theorem X17_creating_a_child_changes_no_binding depth cargs ckwargs w :
  ∃ r evs,
    Toplevel depth cargs ckwargs w = (r, add_log w evs)
    ∧ (evs = [] ∨ ∃ passed, evs = [EvToplevelOrigInit cargs passed]).
Proof.
  unfold Toplevel. generalize (Toplevel__init__ w). intros f. revert f ckwargs.
  induction depth as [|depth IH]; intros f ckwargs.
  - exists (Raise RecursionError), []. split; [|by left]. simpl. unfold raise.
    by rewrite add_log_nil.
  - destruct f as [|fid self color]; simpl.
    + do 2 eexists. split; [reflexivity |]. right. by eexists.
    + unfold bind, getattr, bind, get_obj.
      destruct (heap w !! self) as [o|].
      * destruct (__init__toplevel o) as [saved|]; simpl.
        -- apply IH.
        -- exists (Raise AttributeError), []. split; [|by left]. unfold raise.
           by rewrite add_log_nil.
      * exists (Raise AttributeError), []. split; [|by left]. by rewrite add_log_nil.
Qed.
